(** * EMR Containers Step Functions tasks: validation, rendering and policies

    A shallow embedding of the task constructs of
    [@aws-cdk/aws-stepfunctions-tasks/lib/emrcontainers]:

    - [EmrContainersStartJobRun] (constructor checks, [_renderTask],
      [createPolicyStatements] and their private helpers), and
    - [EmrContainersCreateVirtualCluster] (constructor and
      [createPolicyStatements]).

    JavaScript values are an inductive type, [throw] is the [Throw] branch of
    a result monad, and every [if (...) throw new Error(...)] of a constructor
    is one step of a monadic sequence in the order of the source. *)

From Stdlib Require Import ZArith List String Ascii Bool Lia.
From Stdlib Require Import Numbers.DecimalString.
Import ListNotations.
Open Scope string_scope.
Open Scope list_scope.

Set Warnings "-register-all".

(** ** JavaScript values *)

(** The values that flow through the [any]-typed positions of the source
    ([sfn.TaskInput.value], the object handed to [renderObject]).  A string
    is either plain text or the marker string that [sfn.JsonPath.stringAt]
    returns for a JSON path: the marker is what the string literally holds
    (and what [.length] measures), the path is what it resolves to.  Numbers
    are integers; objects list their own enumerable properties in the order
    [Object.keys] reports them. *)
Inductive JsValue : Type :=
| JsUndefined
| JsNull
| JsBool (b : bool)
| JsNumber (n : Z)
| JsString (s : string)
| JsEncodedPath (marker path : string)
| JsArray (items : list JsValue)
| JsObject (props : list (string * JsValue)).

(** [typeof v]. *)
Definition typeof (v : JsValue) : string :=
  match v with
  | JsUndefined => "undefined"
  | JsNull => "object"
  | JsBool _ => "boolean"
  | JsNumber _ => "number"
  | JsString _ => "string"
  | JsEncodedPath _ _ => "string"
  | JsArray _ => "object"
  | JsObject _ => "object"
  end.

(** Decimal text of an integer, as a template literal prints a number. *)
Definition Z_to_string (n : Z) : string :=
  NilEmpty.string_of_int (Z.to_int n).

(** [`${v}`]: the string a template literal interpolates for [v]. *)
Fixpoint toString (v : JsValue) : string :=
  match v with
  | JsUndefined => "undefined"
  | JsNull => "null"
  | JsBool true => "true"
  | JsBool false => "false"
  | JsNumber n => Z_to_string n
  | JsString s => s
  | JsEncodedPath marker _ => marker
  | JsArray items =>
      String.concat ","
        (map (fun i => match i with
                       | JsUndefined | JsNull => ""
                       | _ => toString i
                       end) items)
  | JsObject _ => "[object Object]"
  end.

(** [v.length] for the values a task input carries: the number of UTF-16
    units of a string, the number of elements of an array, and [undefined]
    ([None]) for anything else (a payload object is taken to have no own
    property called [length]). *)
Definition js_length (v : JsValue) : option Z :=
  match v with
  | JsString s => Some (Z.of_nat (String.length s))
  | JsEncodedPath marker _ => Some (Z.of_nat (String.length marker))
  | JsArray items => Some (Z.of_nat (List.length items))
  | _ => None
  end.

(** [x > n] and [x < n] where [x] is a length or [undefined]; a comparison
    with [undefined] is false. *)
Definition js_gt (x : option Z) (n : Z) : bool :=
  match x with Some k => (n <? k)%Z | None => false end.

Definition js_lt (x : option Z) (n : Z) : bool :=
  match x with Some k => (k <? n)%Z | None => false end.

(** [`${x}`] for a length or [undefined]. *)
Definition length_toString (x : option Z) : string :=
  match x with Some k => Z_to_string k | None => "undefined" end.

(** A string-keyed object of strings ([{ [key: string]: string }]): its own
    properties in [Object.keys] order, which is insertion order for keys
    that are not array indices. *)
Definition StringMap : Type := list (string * string).

(** [Object.keys(o)]. *)
Definition Object_keys {A : Type} (o : list (string * A)) : list string :=
  map fst o.

(** [o[key]] on an object: the first (only) own property of that name. *)
Fixpoint get_property {A : Type} (key : string) (o : list (string * A)) : option A :=
  match o with
  | [] => None
  | (k, v) :: rest => if (k =? key)%string then Some v else get_property key rest
  end.

(** Follow a path of keys through nested objects. *)
Fixpoint get_path (path : list string) (v : JsValue) : option JsValue :=
  match path with
  | [] => Some v
  | k :: rest =>
      match v with
      | JsObject props =>
          match get_property k props with
          | Some x => get_path rest x
          | None => None
          end
      | _ => None
      end
  end.

(** ** Collaborators from [@aws-cdk/aws-stepfunctions], [@aws-cdk/aws-iam]
    and [@aws-cdk/core] *)

(** [sfn.IntegrationPattern]. *)
Inductive IntegrationPattern : Type :=
| REQUEST_RESPONSE
| RUN_JOB
| WAIT_FOR_TASK_TOKEN.

Definition IntegrationPattern_eqb (a b : IntegrationPattern) : bool :=
  match a, b with
  | REQUEST_RESPONSE, REQUEST_RESPONSE => true
  | RUN_JOB, RUN_JOB => true
  | WAIT_FOR_TASK_TOKEN, WAIT_FOR_TASK_TOKEN => true
  | _, _ => false
  end.

(** The enum's string value, as the tests print it. *)
Definition IntegrationPattern_toString (p : IntegrationPattern) : string :=
  match p with
  | REQUEST_RESPONSE => "REQUEST_RESPONSE"
  | RUN_JOB => "RUN_JOB"
  | WAIT_FOR_TASK_TOKEN => "WAIT_FOR_TASK_TOKEN"
  end.

(** [sfn.TaskInput]: a payload and the tag of the factory that built it.
    The tag is only ever interpolated into a message, so it is kept as the
    runtime value it is. *)
Record TaskInput : Type := mkTaskInput {
  type : JsValue;
  value : JsValue
}.

(** Modelled from the spec: [sfn.JsonPath.isEncodedJsonPath] is declared in
    [@aws-cdk/aws-stepfunctions], outside the sources at hand.  The spec
    separates "a concrete literal" from "a runtime-resolved reference
    (opaque string path)" that the compiler cannot inspect; the test is true
    exactly on the strings that encode a JSON path. *)
Definition isEncodedJsonPath (v : JsValue) : bool :=
  match v with
  | JsEncodedPath _ _ => true
  | _ => false
  end.

(** [iam.IRole], [logs.ILogGroup] and [s3.IBucket], each through the one
    attribute the task reads. *)
Record IRole : Type := mkRole { roleArn : string }.
Record ILogGroup : Type := mkLogGroup { logGroupName : string }.
Record IBucket : Type := mkBucket { s3UrlForObject : string }.

(** The argument of [cdk.Stack.of(this).formatArn]; the formatting itself
    belongs to [@aws-cdk/core], so a formatted ARN is kept as its parts. *)
Record ArnComponents : Type := mkArn {
  service : string;
  region : option string;
  resource : string;
  resourceName : JsValue
}.

Inductive Resource : Type :=
| ResourceText (text : string)
| FormatArn (components : ArnComponents).

(** The arguments of [new iam.PolicyStatement]: [conditions] maps an operator
    to its key/value pairs and is empty when the argument is left out. *)
Record PolicyStatement : Type := mkPolicyStatement {
  resources : list Resource;
  actions : list string;
  conditions : list (string * list (string * string))
}.

(** ** Errors *)

(** One constructor per [throw new Error(...)] of the sources, holding the
    values its message interpolates, and [JsTypeError] for the [TypeError]
    the runtime raises when a property of [undefined] is read (its text
    depends on the engine, so [message] gives its name only). *)
Inductive Error : Type :=
| UnsupportedPattern (supported : list IntegrationPattern) (received : IntegrationPattern)
| AppConfigArrayLength (received : Z)
| AppConfigPropertiesLength (received : JsValue)
| EntryPointLength (received : option Z)
| EntryPointArgumentsType (received : JsValue)
| EntryPointArgumentsLength (received : option Z)
| SparkSubmitParametersLength (received : Z)
| ExecutionRoleUndefined
| JsTypeError.

(** The text of each message. *)
Definition message (e : Error) : string :=
  match e with
  | UnsupportedPattern supported received =>
      "Unsupported service integration pattern. Supported Patterns: "
        ++ String.concat "," (map IntegrationPattern_toString supported)
        ++ ". Received: " ++ IntegrationPattern_toString received
  | AppConfigArrayLength received =>
      "Application configuration array must have 100 or fewer entries. Received "
        ++ Z_to_string received
  | AppConfigPropertiesLength received =>
      "Application configuration properties must have 100 or fewer entries. Received "
        ++ toString received
  | EntryPointLength received =>
      "Entry point must be between 1 and 256 characters in length. Received "
        ++ length_toString received ++ "."
  | EntryPointArgumentsType received =>
      "Entry point arguments must be a string array. Received " ++ toString received
  | EntryPointArgumentsLength received =>
      "Entry point arguments must be an string array between 1 and 10280 in length. Received "
        ++ length_toString received ++ "."
  | SparkSubmitParametersLength received =>
      "Spark submit parameters must be between 1 and 102400 characters in length. Received "
        ++ Z_to_string received ++ "."
  | ExecutionRoleUndefined =>
      "Execution role cannot be undefined when the virtual cluster ID is not a concrete value. Provide an execution role with the correct trust policy"
  | JsTypeError => "TypeError"
  end.

(** The spec's taxonomy of compile-time errors (section 7), with the runtime
    [TypeError] beside it.  Section 4.2 files the two limits on configuration
    trees under the length error. *)
Inductive ErrorKind : Type :=
| UnsupportedModeError
| LengthError
| TypeError
| MissingExecutionRoleError
| TooManyEntriesError
| RuntimeError.

Definition kind (e : Error) : ErrorKind :=
  match e with
  | UnsupportedPattern _ _ => UnsupportedModeError
  | AppConfigArrayLength _ => LengthError
  | AppConfigPropertiesLength _ => LengthError
  | EntryPointLength _ => LengthError
  | EntryPointArgumentsType _ => TypeError
  | EntryPointArgumentsLength _ => LengthError
  | SparkSubmitParametersLength _ => LengthError
  | ExecutionRoleUndefined => MissingExecutionRoleError
  | JsTypeError => RuntimeError
  end.

(** ** Results: a value or a thrown error *)

Inductive Result (A : Type) : Type :=
| Ok (a : A)
| Throw (e : Error).

Arguments Ok {A} a.
Arguments Throw {A} e.

Definition bind {A B : Type} (c : Result A) (k : A -> Result B) : Result B :=
  match c with
  | Ok a => k a
  | Throw e => Throw e
  end.

Notation "x <- c ;; k" := (bind c (fun x => k))
  (at level 61, c at next level, right associativity).
Notation "c ;; k" := (bind c (fun _ => k))
  (at level 61, right associativity).

(** [if (c) { throw e }]. *)
Definition throw_if (c : bool) (e : Error) : Result unit :=
  if c then Throw e else Ok tt.

(** [xs.forEach(f)] for an [f] that may throw: stops at the first throw. *)
Definition forEach {A : Type} (f : A -> Result unit) : list A -> Result unit :=
  fix go (xs : list A) : Result unit :=
    match xs with
    | [] => Ok tt
    | x :: rest => f x ;; go rest
    end.

(** [xs.map(f)] for an [f] that may throw. *)
Definition mapM {A B : Type} (f : A -> Result B) : list A -> Result (list B) :=
  fix go (xs : list A) : Result (list B) :=
    match xs with
    | [] => Ok []
    | x :: rest => y <- f x ;; ys <- go rest ;; Ok (y :: ys)
    end.

(** The two errors of the limits on configuration trees. *)
Definition is_appConfig_error (e : Error) : Prop :=
  match e with
  | AppConfigArrayLength _ | AppConfigPropertiesLength _ => True
  | _ => False
  end.


(** Modelled from the spec: [validatePatternSupported] lives in
    [../private/task-utils], outside the sources at hand.  Section 4.1:
    [validate(mode, supportedModes) -> void | Error], failing with the
    unsupported-mode error that lists the supported set and the received
    value. *)
Definition validatePatternSupported
    (integrationPattern : IntegrationPattern)
    (supportedPatterns : list IntegrationPattern) : Result unit :=
  throw_if (negb (existsb (IntegrationPattern_eqb integrationPattern) supportedPatterns))
           (UnsupportedPattern supportedPatterns integrationPattern).

(** Modelled from the spec: [integrationResourceArn] lives in
    [../private/task-utils].  Section 4.3: the mode is appended as a suffix
    token for the synchronous and callback modes and omitted for
    fire-and-forget; the tests show the [.sync] suffix and the partition
    reference, written here as a placeholder. *)
Definition integrationResourceArn
    (service api : string) (integrationPattern : IntegrationPattern) : string :=
  "arn:${AWS::Partition}:states:::" ++ service ++ ":" ++ api ++
  match integrationPattern with
  | REQUEST_RESPONSE => ""
  | RUN_JOB => ".sync"
  | WAIT_FOR_TASK_TOKEN => ".waitForTaskToken"
  end.

(** Modelled from the spec: [sfn.FieldUtils.renderObject] is declared in
    [@aws-cdk/aws-stepfunctions].  Section 4.3: absent fields are omitted
    from the output, a runtime-resolved reference is rendered under the
    key-suffix convention (the tests show ['Id.$': '$.VirtualClusterId']), and
    nested values are rendered recursively in their order. *)
Definition renderField (render : JsValue -> JsValue) (kv : string * JsValue)
  : list (string * JsValue) :=
  match snd kv with
  | JsUndefined | JsNull => []
  | JsEncodedPath _ path => [((fst kv ++ ".$")%string, JsString path)]
  | JsObject _ | JsArray _ => [(fst kv, render (snd kv))]
  | _ => [kv]
  end.

Fixpoint renderObject (v : JsValue) : JsValue :=
  match v with
  | JsObject props => JsObject (flat_map (renderField renderObject) props)
  | JsArray items => JsArray (map renderObject items)
  | _ => v
  end.

(** [cdk.stringToCloudFormation] and [cdk.objectToCloudFormation] hand a
    string, and an object of strings, on as they are. *)
Definition stringToCloudFormation (s : string) : JsValue := JsString s.

Definition objectToCloudFormation (o : StringMap) : JsValue :=
  JsObject (map (fun kv => (fst kv, JsString (snd kv))) o).

(** [cdk.listMapper(elementMapper)(x)]: [x] itself when it is not an array,
    [x.map(elementMapper)] otherwise. *)
Definition listMapper {A : Type} (elementMapper : A -> Result JsValue)
    (x : option (list A)) : Result JsValue :=
  match x with
  | None => Ok JsUndefined
  | Some xs => items <- mapM elementMapper xs ;; Ok (JsArray items)
  end.

(** An optional string as a JavaScript value. *)
Definition opt_string (o : option string) : JsValue :=
  match o with Some s => JsString s | None => JsUndefined end.

(** ** [EmrContainersCreateVirtualCluster] (create-virtual-cluster.ts) *)

Module CreateVirtualCluster.

(** [EksClusterInput]: the name of the EKS cluster, a literal or the value of
    a task input. *)
Record EksClusterInput : Type := mkEksClusterInput { clusterName : JsValue }.

Record EmrContainersCreateVirtualClusterProps : Type := mkProps {
  integrationPattern : option IntegrationPattern;
  eksCluster : EksClusterInput;
  eksNamespace : option string;
  virtuaClusterName : option string;
  tags : option StringMap
}.

Definition SUPPORTED_INTEGRATION_PATTERNS : list IntegrationPattern :=
  [REQUEST_RESPONSE].

Definition createPolicyStatements : list PolicyStatement :=
  [ {| resources := [ResourceText "*"];
       actions := ["emr-containers:CreateVirtualCluster"];
       conditions := [] |};
    {| resources :=
         [FormatArn {| service := "iam";
                       region := Some "";
                       resource := "role/aws-service-role/emr-containers.amazonaws.com";
                       resourceName := JsString "AWSServiceRoleForAmazonEMRContainers" |}];
       actions := ["iam:CreateServiceLinkedRole"];
       conditions :=
         [("StringLike", [("iam:AWSServiceName", "emr-containers.amazonaws.com")])] |} ].

(** The fields of a constructed task. *)
Record EmrContainersCreateVirtualCluster : Type := mkTask {
  this_props : EmrContainersCreateVirtualClusterProps;
  this_integrationPattern : IntegrationPattern;
  taskPolicies : list PolicyStatement
}.

(** The constructor, after [super(scope, id, props)]. *)
Definition constructor (props : EmrContainersCreateVirtualClusterProps)
  : Result EmrContainersCreateVirtualCluster :=
  let integrationPattern :=
    match integrationPattern props with
    | Some p => p
    | None => REQUEST_RESPONSE
    end in
  validatePatternSupported integrationPattern SUPPORTED_INTEGRATION_PATTERNS ;;
  Ok {| this_props := props;
        this_integrationPattern := integrationPattern;
        taskPolicies := createPolicyStatements |}.

(** The mode a task runs in: the requested one, or the fire-and-forget
    default. *)
Definition requestedPattern (props : EmrContainersCreateVirtualClusterProps)
  : IntegrationPattern :=
  match integrationPattern props with
  | Some p => p
  | None => REQUEST_RESPONSE
  end.

End CreateVirtualCluster.

(** ** [EmrContainersStartJobRun] *)

Module StartJobRun.

(** *** Props *)

Record SparkSubmitJobDriver : Type := mkSparkSubmitJobDriver {
  entryPoint : TaskInput;
  entryPointArguments : option TaskInput;
  sparkSubmitParameters : option string
}.

Record JobDriver : Type := mkJobDriver {
  sparkSubmitJobDriver : option SparkSubmitJobDriver
}.

(** An open-ended classification: any literal can be wrapped. *)
Record Classification : Type := mkClassification {
  classificationStatement : string
}.

Definition SPARK : Classification := mkClassification "spark".
Definition SPARK_DEFAULTS : Classification := mkClassification "spark-defaults".
Definition SPARK_ENV : Classification := mkClassification "spark-env".
Definition SPARK_HIVE_SITE : Classification := mkClassification "spark-hive-site".
Definition SPARK_METRICS : Classification := mkClassification "spark-metrics".

(** A configuration node: a tree through [nestedConfig]. *)
Inductive ApplicationConfiguration : Type :=
| mkApplicationConfiguration
    (classification : Classification)
    (nestedConfig : option (list ApplicationConfiguration))
    (properties : option StringMap).

Definition classification (c : ApplicationConfiguration) : Classification :=
  match c with mkApplicationConfiguration x _ _ => x end.

Definition nestedConfig (c : ApplicationConfiguration)
  : option (list ApplicationConfiguration) :=
  match c with mkApplicationConfiguration _ x _ => x end.

Definition properties (c : ApplicationConfiguration) : option StringMap :=
  match c with mkApplicationConfiguration _ _ x => x end.

Record Monitoring : Type := mkMonitoring {
  logging : option bool;
  logGroup : option ILogGroup;
  logStreamNamePrefix : option string;
  logBucket : option IBucket;
  persistentAppUI : option bool
}.

Record ReleaseLabel : Type := mkReleaseLabel { label : string }.

Definition EMR_5_32_0 : ReleaseLabel := mkReleaseLabel "emr-5.32.0-latest".
Definition EMR_5_33_0 : ReleaseLabel := mkReleaseLabel "emr-5.33.0-latest".
Definition EMR_6_2_0 : ReleaseLabel := mkReleaseLabel "emr-6.2.0-latest".
Definition EMR_6_3_0 : ReleaseLabel := mkReleaseLabel "emr-6.3.0-latest".

Record EmrContainersStartJobRunProps : Type := mkProps {
  integrationPattern : option IntegrationPattern;
  virtualClusterId : TaskInput;
  jobName : option string;
  executionRole : option IRole;
  releaseLabel : ReleaseLabel;
  applicationConfig : option (list ApplicationConfiguration);
  jobDriver : JobDriver;
  monitoring : option Monitoring;
  tags : option StringMap
}.

Definition SUPPORTED_INTEGRATION_PATTERNS : list IntegrationPattern :=
  [REQUEST_RESPONSE; RUN_JOB].

(** *** Private helpers *)

(** [Array.isArray(value) && value.every(item => typeof item === 'string')]. *)
Definition isArrayOfStrings (value : JsValue) : bool :=
  match value with
  | JsArray items => forallb (fun item => (typeof item =? "string")%string) items
  | _ => false
  end.

(** [appConfig.properties.length]: the own property called [length] of the
    mapping when it has one, [undefined] otherwise. *)
Definition properties_length (p : StringMap) : JsValue :=
  opt_string (get_property "length" p).

Definition validateAppConfigPropertiesLength (appConfig : ApplicationConfiguration)
  : Result unit :=
  match properties appConfig with
  | None => Ok tt
  | Some p =>
      throw_if (100 <? Z.of_nat (List.length (Object_keys p)))%Z
               (AppConfigPropertiesLength (properties_length p))
  end.

(** The body of [validateAppConfigLength], with the call on each element's
    [nestedConfig] as [recur]. *)
Definition validateAppConfigLength_body
    (recur : ApplicationConfiguration -> Result unit)
    (config : option (list ApplicationConfiguration)) : Result unit :=
  match config with
  | None => Ok tt
  | Some elements =>
      if (100 <? Z.of_nat (List.length elements))%Z
      then Throw (AppConfigArrayLength (Z.of_nat (List.length elements)))
      else
        forEach validateAppConfigPropertiesLength elements ;;
        forEach recur elements
  end.

(** [this.validateAppConfigLength(element.nestedConfig)]. *)
Fixpoint validateNestedConfig (element : ApplicationConfiguration) : Result unit :=
  match element with
  | mkApplicationConfiguration _ nested _ =>
      validateAppConfigLength_body validateNestedConfig nested
  end.

Definition validateAppConfigLength
    (config : option (list ApplicationConfiguration)) : Result unit :=
  validateAppConfigLength_body validateNestedConfig config.

(** [renderTags]: a one-key object around the list of pairs, or the empty
    object. *)
Definition renderTags (tags : option StringMap) : JsValue :=
  match tags with
  | Some t =>
      JsObject
        [("Tags",
          JsArray (map (fun key =>
                          JsObject [("Key", JsString key);
                                    ("Value", opt_string (get_property key t))])
                       (Object_keys t)))]
  | None => JsObject []
  end.

(** [applicationConfigPropertyToJson].  The method is handed to
    [cdk.listMapper] as a bare function, so [Array.prototype.map] calls it
    with [this] undefined: [this_bound] says whether [this] is the task.
    Reading [this.applicationConfigPropertyToJson] for a nested list needs
    it. *)
Fixpoint applicationConfigPropertyToJson (this_bound : bool)
    (property : ApplicationConfiguration) : Result JsValue :=
  match property with
  | mkApplicationConfiguration c nested props =>
      configurations <-
        match nested with
        | Some elements =>
            if this_bound
            then items <- mapM (applicationConfigPropertyToJson false) elements ;;
                 Ok (JsArray items)
            else Throw JsTypeError
        | None => Ok JsUndefined
        end ;;
      Ok (JsObject
            [("Classification", stringToCloudFormation (classificationStatement c));
             ("Properties",
              match props with
              | Some p => objectToCloudFormation p
              | None => JsUndefined
              end);
             ("Configurations", configurations)])
  end.

(** *** The constructor's checks, in the order of the source *)

(** Lines 109-111: the application configuration, when given, respects the
    limits on configuration trees. *)
Definition check_applicationConfig (props : EmrContainersStartJobRunProps) : Result unit :=
  match applicationConfig props with
  | Some config => validateAppConfigLength (Some config)
  | None => Ok tt
  end.

(** Lines 113-118: the entry point, when a job driver is given and its value
    is not an encoded JSON path, is between 1 and 256 long. *)
Definition check_entryPoint (props : EmrContainersStartJobRunProps) : Result unit :=
  match sparkSubmitJobDriver (jobDriver props) with
  | Some driver =>
      let v := value (entryPoint driver) in
      throw_if (negb (isEncodedJsonPath v)
                && (js_gt (js_length v) 256 || js_lt (js_length v) 1))
               (EntryPointLength (js_length v))
  | None => Ok tt
  end.

(** Lines 120-124: the entry point arguments are an array of strings or an
    encoded JSON path. *)
Definition check_entryPointArguments_type (props : EmrContainersStartJobRunProps)
  : Result unit :=
  match sparkSubmitJobDriver (jobDriver props) with
  | Some driver =>
      match entryPointArguments driver with
      | Some args =>
          throw_if (negb (isArrayOfStrings (value args))
                    && negb (isEncodedJsonPath (value args)))
                   (EntryPointArgumentsType (type args))
      | None => Ok tt
      end
  | None => Ok tt
  end.

(** Lines 126-131: [value.length] of the entry point arguments is between 1
    and 10280, unless the value is an encoded JSON path. *)
Definition check_entryPointArguments_length (props : EmrContainersStartJobRunProps)
  : Result unit :=
  match sparkSubmitJobDriver (jobDriver props) with
  | Some driver =>
      match entryPointArguments driver with
      | Some args =>
          let v := value args in
          throw_if ((js_gt (js_length v) 10280 || js_lt (js_length v) 1)
                    && negb (isEncodedJsonPath v))
                   (EntryPointArgumentsLength (js_length v))
      | None => Ok tt
      end
  | None => Ok tt
  end.

(** Lines 133-137: the Spark submit parameters, when given and not the empty
    string (which is falsy), are between 1 and 102400 long. *)
Definition check_sparkSubmitParameters (props : EmrContainersStartJobRunProps)
  : Result unit :=
  match sparkSubmitJobDriver (jobDriver props) with
  | Some driver =>
      match sparkSubmitParameters driver with
      | Some parameters =>
          let n := Z.of_nat (String.length parameters) in
          throw_if (negb (n =? 0)%Z && ((102400 <? n)%Z || (n <? 1)%Z))
                   (SparkSubmitParametersLength n)
      | None => Ok tt
      end
  | None => Ok tt
  end.

(** Lines 139-142: without an execution role the virtual cluster id must be
    a concrete value. *)
Definition check_executionRole (props : EmrContainersStartJobRunProps) : Result unit :=
  throw_if (match executionRole props with None => true | Some _ => false end
            && isEncodedJsonPath (value (virtualClusterId props)))
           ExecutionRoleUndefined.

(** *** Resources the constructor creates *)

(** [new logs.LogGroup(this, 'Monitoring Log Group')] and
    [new s3.Bucket(this, 'Monitoring Bucket')]: their generated names are
    deploy-time attributes, written as references to the construct path. *)
Definition newLogGroup (id : string) : ILogGroup :=
  {| logGroupName := "${" ++ id ++ "/Monitoring Log Group.Name}" |}.

Definition newBucket (id : string) : IBucket :=
  {| s3UrlForObject := "s3://${" ++ id ++ "/Monitoring Bucket.Name}" |}.

(** Line 144: [monitoring?.logGroup ?? monitoring?.logging ? new LogGroup : undefined];
    [??] binds tighter than [? :], so the test is on [logGroup ?? logging]
    and a log group is created whenever the test is truthy. *)
Definition monitoringLogGroup (id : string) (m : option Monitoring) : option ILogGroup :=
  let test :=
    match m with
    | Some m' =>
        match logGroup m' with
        | Some _ => true
        | None => match logging m' with Some b => b | None => false end
        end
    | None => false
    end in
  if test then Some (newLogGroup id) else None.

(** Line 145, likewise for the bucket. *)
Definition monitoringLogBucket (id : string) (m : option Monitoring) : option IBucket :=
  let test :=
    match m with
    | Some m' =>
        match logBucket m' with
        | Some _ => true
        | None => match logging m' with Some b => b | None => false end
        end
    | None => false
    end in
  if test then Some (newBucket id) else None.

(** [grantMonitoringPolicies]: grants on [this.role].  [this_role] is the
    field as it stands when the method runs; while it is still unassigned,
    [this.role.addToPrincipalPolicy] reads a property of [undefined].  The
    result is the statement added to the role's policy (the bucket grant is
    the bucket's own business). *)
Definition grantMonitoringPolicies (this_role : option IRole) : Result (list PolicyStatement) :=
  match this_role with
  | None => Throw JsTypeError
  | Some _ =>
      Ok [ {| resources := [ResourceText "arn:aws:logs:*:*:*"];
              actions := ["logs:PutLogEvents"; "logs:CreateLogStream";
                          "logs:DescribeLogGroups"; "logs:DescribeLogStreams"];
              conditions := [] |} ]
  end.

(** [createJobExecutionRole]: the new role, after the monitoring grants and
    the trust-policy update (a custom resource, outside this model). *)
Definition createJobExecutionRole (id : string) (this_role : option IRole) : Result IRole :=
  let jobExecutionRole := {| roleArn := "${" ++ id ++ "/Job-Execution-Role.Arn}" |} in
  grantMonitoringPolicies this_role ;;
  Ok jobExecutionRole.

(** [createPolicyStatements], on the three fields of [this] it reads. *)
Definition createPolicyStatements
    (props : EmrContainersStartJobRunProps)
    (integrationPattern : IntegrationPattern)
    (role : IRole) : list PolicyStatement :=
  let id := value (virtualClusterId props) in
  let policyStatements :=
    [ {| resources :=
           [FormatArn {| service := "emr-containers";
                         region := None;
                         resource := "/virtualclusters";
                         resourceName :=
                           if isEncodedJsonPath id then JsString "*" else id |}];
         actions := ["emr-containers:StartJobRun"];
         conditions :=
           [("StringEquals", [("emr-containers:ExecutionRoleArn", roleArn role)])] |} ] in
  if IntegrationPattern_eqb integrationPattern RUN_JOB
  then
    policyStatements ++
    [ {| resources :=
           [FormatArn {| service := "emr-containers";
                         region := None;
                         resource := "/virtualclusters";
                         resourceName :=
                           if isEncodedJsonPath id then JsString "*"
                           else JsString (toString id ++ "/jobruns/*") |}];
         actions := ["emr-containers:DescribeJobRun"; "emr-containers:CancelJobRun"];
         conditions := [] |} ]
  else policyStatements.

(** *** The task *)

(** The fields of a constructed task; [rolePolicy] holds what the
    constructor added to the role's policy. *)
Record EmrContainersStartJobRun : Type := mkTask {
  this_props : EmrContainersStartJobRunProps;
  this_integrationPattern : IntegrationPattern;
  this_role : IRole;
  this_logGroup : option ILogGroup;
  this_logBucket : option IBucket;
  rolePolicy : list PolicyStatement;
  taskPolicies : list PolicyStatement
}.

(** The constructor, after [super(scope, id, props)]; [id] is the construct
    path under which generated resources are named. *)
Definition constructor (id : string) (props : EmrContainersStartJobRunProps)
  : Result EmrContainersStartJobRun :=
  let integrationPattern :=
    match integrationPattern props with
    | Some p => p
    | None => RUN_JOB
    end in
  validatePatternSupported integrationPattern SUPPORTED_INTEGRATION_PATTERNS ;;
  check_applicationConfig props ;;
  check_entryPoint props ;;
  check_entryPointArguments_type props ;;
  check_entryPointArguments_length props ;;
  check_sparkSubmitParameters props ;;
  check_executionRole props ;;
  let logGroup := monitoringLogGroup id (monitoring props) in
  let logBucket := monitoringLogBucket id (monitoring props) in
  role <- match executionRole props with
          | Some r => Ok r
          | None => createJobExecutionRole id None
          end ;;
  granted <- grantMonitoringPolicies (Some role) ;;
  Ok {| this_props := props;
        this_integrationPattern := integrationPattern;
        this_role := role;
        this_logGroup := logGroup;
        this_logBucket := logBucket;
        rolePolicy := granted;
        taskPolicies := createPolicyStatements props integrationPattern role |}.

(** The mode a task runs in: the requested one, or the synchronous default. *)
Definition requestedPattern (props : EmrContainersStartJobRunProps) : IntegrationPattern :=
  match integrationPattern props with
  | Some p => p
  | None => RUN_JOB
  end.

(** [derive] of the spec: the statements of a task, recomputed from its
    fields. *)
Definition derive (t : EmrContainersStartJobRun) : list PolicyStatement :=
  createPolicyStatements (this_props t) (this_integrationPattern t) (this_role t).

(** *** Rendering *)

(** The object literal that [_renderTask] hands to [renderObject]. *)
Definition parametersObject (t : EmrContainersStartJobRun) (applicationConfiguration : JsValue)
  : JsValue :=
  let props := this_props t in
  let driver := sparkSubmitJobDriver (jobDriver props) in
  JsObject
    [ ("VirtualClusterId", value (virtualClusterId props));
      ("Name", opt_string (jobName props));
      ("ExecutionRoleArn", JsString (roleArn (this_role t)));
      ("ReleaseLabel", JsString (label (releaseLabel props)));
      ("JobDriver",
       JsObject
         [("SparkSubmitJobDriver",
           JsObject
             [ ("EntryPoint",
                match driver with
                | Some d => value (entryPoint d)
                | None => JsUndefined
                end);
               ("EntryPointArguments",
                match driver with
                | Some d =>
                    match entryPointArguments d with
                    | Some args => value args
                    | None => JsUndefined
                    end
                | None => JsUndefined
                end);
               ("SparkSubmitParameters",
                match driver with
                | Some d => opt_string (sparkSubmitParameters d)
                | None => JsUndefined
                end) ])]);
      ("ConfigurationOverrides",
       JsObject
         [ ("ApplicationConfiguration", applicationConfiguration);
           ("MonitoringConfiguration",
            JsObject
              [ ("CloudWatchMonitoringConfiguration",
                 match this_logGroup t with
                 | Some g =>
                     JsObject
                       [ ("LogGroupName", JsString (logGroupName g));
                         ("LogStreamNamePrefix",
                          match monitoring props with
                          | Some m => opt_string (logStreamNamePrefix m)
                          | None => JsUndefined
                          end) ]
                 | None => JsUndefined
                 end);
                ("PersistentAppUI",
                 match monitoring props with
                 | Some m =>
                     match persistentAppUI m with
                     | Some false => JsString "DISABLED"
                     | _ => JsString "ENABLED"
                     end
                 | None => JsString "ENABLED"
                 end);
                ("S3MonitoringConfiguration",
                 match this_logBucket t with
                 | Some b => JsObject [("LogUri", JsString (s3UrlForObject b))]
                 | None => JsUndefined
                 end) ]);
           ("Tags",
            match tags props with
            | Some tg => renderTags (Some tg)
            | None => JsUndefined
            end) ]) ].

(** [_renderTask]. *)
Definition _renderTask (t : EmrContainersStartJobRun) : Result JsValue :=
  applicationConfiguration <-
    listMapper (applicationConfigPropertyToJson false) (applicationConfig (this_props t)) ;;
  Ok (JsObject
        [ ("Resource",
           JsString (integrationResourceArn "emr-containers" "startJobRun"
                                            (this_integrationPattern t)));
          ("Parameters", renderObject (parametersObject t applicationConfiguration)) ]).

End StartJobRun.

Import StartJobRun.

(** ** Sample specifications *)

Module Samples.

(** [sfn.TaskInput.fromText] and [sfn.TaskInput.fromJsonPathAt] build text
    inputs, [sfn.TaskInput.fromObject] object inputs. *)
Definition fromText (s : string) : TaskInput :=
  {| type := JsNumber 0; value := JsString s |}.

Definition fromJsonPathAt (path : string) : TaskInput :=
  {| type := JsNumber 0; value := JsEncodedPath "${Token[TOKEN.42]}" path |}.

Definition fromObject (v : JsValue) : TaskInput :=
  {| type := JsNumber 1; value := v |}.

Definition jobRole : IRole := mkRole "arn:aws:iam::123456789012:role/job-execution".

Definition driver : SparkSubmitJobDriver :=
  {| entryPoint := fromText "s3://bucket/main.py";
     entryPointArguments := Some (fromObject (JsArray [JsString "--input"; JsString "in.csv"]));
     sparkSubmitParameters := Some "--conf spark.executor.instances=2" |}.

(** A literal cluster id, a supplied role, the default (synchronous) mode. *)
Definition literal_props : EmrContainersStartJobRunProps :=
  {| integrationPattern := None;
     virtualClusterId := fromText "abc123";
     jobName := None;
     executionRole := Some jobRole;
     releaseLabel := EMR_6_2_0;
     applicationConfig := None;
     jobDriver := {| sparkSubmitJobDriver := Some driver |};
     monitoring := None;
     tags := None |}.

Definition with_pattern (p : IntegrationPattern) (props : EmrContainersStartJobRunProps)
  : EmrContainersStartJobRunProps :=
  {| integrationPattern := Some p;
     virtualClusterId := virtualClusterId props;
     jobName := jobName props;
     executionRole := executionRole props;
     releaseLabel := releaseLabel props;
     applicationConfig := applicationConfig props;
     jobDriver := jobDriver props;
     monitoring := monitoring props;
     tags := tags props |}.

Definition with_cluster (c : TaskInput) (props : EmrContainersStartJobRunProps)
  : EmrContainersStartJobRunProps :=
  {| integrationPattern := integrationPattern props;
     virtualClusterId := c;
     jobName := jobName props;
     executionRole := executionRole props;
     releaseLabel := releaseLabel props;
     applicationConfig := applicationConfig props;
     jobDriver := jobDriver props;
     monitoring := monitoring props;
     tags := tags props |}.

Definition with_role (r : option IRole) (props : EmrContainersStartJobRunProps)
  : EmrContainersStartJobRunProps :=
  {| integrationPattern := integrationPattern props;
     virtualClusterId := virtualClusterId props;
     jobName := jobName props;
     executionRole := r;
     releaseLabel := releaseLabel props;
     applicationConfig := applicationConfig props;
     jobDriver := jobDriver props;
     monitoring := monitoring props;
     tags := tags props |}.

Definition with_driver (d : option SparkSubmitJobDriver) (props : EmrContainersStartJobRunProps)
  : EmrContainersStartJobRunProps :=
  {| integrationPattern := integrationPattern props;
     virtualClusterId := virtualClusterId props;
     jobName := jobName props;
     executionRole := executionRole props;
     releaseLabel := releaseLabel props;
     applicationConfig := applicationConfig props;
     jobDriver := {| sparkSubmitJobDriver := d |};
     monitoring := monitoring props;
     tags := tags props |}.

Definition with_applicationConfig (c : option (list ApplicationConfiguration))
    (props : EmrContainersStartJobRunProps) : EmrContainersStartJobRunProps :=
  {| integrationPattern := integrationPattern props;
     virtualClusterId := virtualClusterId props;
     jobName := jobName props;
     executionRole := executionRole props;
     releaseLabel := releaseLabel props;
     applicationConfig := c;
     jobDriver := jobDriver props;
     monitoring := monitoring props;
     tags := tags props |}.


(** The same with the cluster id read from the state input. *)
Definition reference_props : EmrContainersStartJobRunProps :=
  with_cluster (fromJsonPathAt "$.ClusterId") literal_props.

(** The task the constructor builds from [literal_props] under the path
    ["Task"]. *)
Definition literal_task : EmrContainersStartJobRun :=
  {| this_props := literal_props;
     this_integrationPattern := RUN_JOB;
     this_role := jobRole;
     this_logGroup := None;
     this_logBucket := None;
     rolePolicy :=
       [ {| resources := [ResourceText "arn:aws:logs:*:*:*"];
            actions := ["logs:PutLogEvents"; "logs:CreateLogStream";
                        "logs:DescribeLogGroups"; "logs:DescribeLogStreams"];
            conditions := [] |} ];
     taskPolicies := createPolicyStatements literal_props RUN_JOB jobRole |}.

(** The task built from [reference_props]. *)
Definition reference_task : EmrContainersStartJobRun :=
  {| this_props := reference_props;
     this_integrationPattern := RUN_JOB;
     this_role := jobRole;
     this_logGroup := None;
     this_logBucket := None;
     rolePolicy := rolePolicy literal_task;
     taskPolicies := createPolicyStatements reference_props RUN_JOB jobRole |}.

End Samples.


(** ** Notions the claims are stated with *)

(** A configuration list is oversized when some level of the tree (the list
    itself or a nested list at any depth) has more than 100 entries, or some
    node of the tree has more than 100 properties. *)
Inductive Oversized : list ApplicationConfiguration -> Prop :=
| Oversized_level (elements : list ApplicationConfiguration) :
    (100 < Z.of_nat (List.length elements))%Z ->
    Oversized elements
| Oversized_properties (elements : list ApplicationConfiguration)
    (element : ApplicationConfiguration) (p : StringMap) :
    In element elements ->
    properties element = Some p ->
    (100 < Z.of_nat (List.length p))%Z ->
    Oversized elements
| Oversized_nested (elements : list ApplicationConfiguration)
    (element : ApplicationConfiguration) (nested : list ApplicationConfiguration) :
    In element elements ->
    nestedConfig element = Some nested ->
    Oversized nested ->
    Oversized elements.

(** A chain of [depth] single-child nodes above [bottom]. *)
Fixpoint nest (depth : nat) (bottom : list ApplicationConfiguration)
  : list ApplicationConfiguration :=
  match depth with
  | O => bottom
  | S d => [mkApplicationConfiguration SPARK (Some (nest d bottom)) None]
  end.

(** [n] properties [k0 .. k(n-1)], and [n] sibling nodes without properties. *)
Definition manyProperties (n : nat) : StringMap :=
  map (fun i => (("k" ++ Z_to_string (Z.of_nat i))%string, "v")) (seq 0 n).

Definition manyNodes (n : nat) : list ApplicationConfiguration :=
  repeat (mkApplicationConfiguration SPARK_DEFAULTS None None) n.







(** [n] copies of a character. *)
Fixpoint repeat_char (c : ascii) (n : nat) : string :=
  match n with
  | O => EmptyString
  | S k => String c (repeat_char c k)
  end.

Module Cases.

Import Samples.

(** One argument of 10281 characters. *)
Definition long_argument : TaskInput :=
  fromObject (JsArray [JsString (repeat_char "x" (Z.to_nat 10281))]).

Definition long_argument_props : EmrContainersStartJobRunProps :=
  with_driver
    (Some {| entryPoint := fromText "s3://bucket/main.py";
             entryPointArguments := Some long_argument;
             sparkSubmitParameters := None |})
    literal_props.



(** An empty entry point. *)
Definition empty_entryPoint : SparkSubmitJobDriver :=
  {| entryPoint := fromText EmptyString;
     entryPointArguments := None;
     sparkSubmitParameters := None |}.

Definition empty_entryPoint_props : EmrContainersStartJobRunProps :=
  with_driver (Some empty_entryPoint) literal_props.

(** An entry point read from the state input. *)
Definition reference_entryPoint_props : EmrContainersStartJobRunProps :=
  with_driver
    (Some {| entryPoint := fromJsonPathAt "$.EntryPoint";
             entryPointArguments := None;
             sparkSubmitParameters := None |})
    literal_props.

(** No execution role, a cluster id read from the state input. *)
Definition no_role_props : EmrContainersStartJobRunProps :=
  with_role None reference_props.

(** The same with an empty entry point. *)
Definition no_role_empty_entryPoint_props : EmrContainersStartJobRunProps :=
  with_driver (Some empty_entryPoint) no_role_props.

(** The callback mode, which the task does not support, on a specification
    whose fields are invalid as well. *)
Definition callback_invalid_props : EmrContainersStartJobRunProps :=
  with_pattern WAIT_FOR_TASK_TOKEN no_role_empty_entryPoint_props.

(** A virtual-cluster creation asked to run synchronously. *)
Definition create_cluster_sync_props
  : CreateVirtualCluster.EmrContainersCreateVirtualClusterProps :=
  {| CreateVirtualCluster.integrationPattern := Some RUN_JOB;
     CreateVirtualCluster.eksCluster :=
       {| CreateVirtualCluster.clusterName := JsString "test-eks" |};
     CreateVirtualCluster.eksNamespace := Some "spark";
     CreateVirtualCluster.virtuaClusterName := Some "emr-containers-test-cluster";
     CreateVirtualCluster.tags := None |}.

(** One node with 101 properties; 101 sibling nodes three levels down. *)
Definition crowded_node : list ApplicationConfiguration :=
  [mkApplicationConfiguration SPARK_DEFAULTS None (Some (manyProperties 101))].

Definition crowded_node_props : EmrContainersStartJobRunProps :=
  with_applicationConfig (Some crowded_node) literal_props.

Definition deep_crowd : list ApplicationConfiguration := nest 3 (manyNodes 101).



(** The document rendered for [literal_task]. *)
Definition literal_doc : JsValue :=
  JsObject
    [ ("Resource", JsString "arn:${AWS::Partition}:states:::emr-containers:startJobRun.sync");
      ("Parameters",
       JsObject
         [ ("VirtualClusterId", JsString "abc123");
           ("ExecutionRoleArn", JsString "arn:aws:iam::123456789012:role/job-execution");
           ("ReleaseLabel", JsString "emr-6.2.0-latest");
           ("JobDriver",
            JsObject
              [("SparkSubmitJobDriver",
                JsObject
                  [ ("EntryPoint", JsString "s3://bucket/main.py");
                    ("EntryPointArguments", JsArray [JsString "--input"; JsString "in.csv"]);
                    ("SparkSubmitParameters", JsString "--conf spark.executor.instances=2") ])]);
           ("ConfigurationOverrides",
            JsObject
              [("MonitoringConfiguration",
                JsObject [("PersistentAppUI", JsString "ENABLED")])]) ]) ].

(** The same specification without a job driver, and its task. *)
Definition driverless_props : EmrContainersStartJobRunProps :=
  with_driver None literal_props.

Definition driverless_task : EmrContainersStartJobRun :=
  {| this_props := driverless_props;
     this_integrationPattern := RUN_JOB;
     this_role := jobRole;
     this_logGroup := None;
     this_logBucket := None;
     rolePolicy := rolePolicy literal_task;
     taskPolicies := createPolicyStatements driverless_props RUN_JOB jobRole |}.


(** [get_path] in the document a task renders to, when it renders. *)
Definition rendered_at (path : list string) (t : EmrContainersStartJobRun) : option JsValue :=
  match _renderTask t with
  | Ok doc => get_path path doc
  | Throw _ => None
  end.

End Cases.

(** ** The rest of the two tasks *)



(** The statement [grantMonitoringPolicies] adds to the role's policy. *)
Definition logsStatement : PolicyStatement :=
  {| resources := [ResourceText "arn:aws:logs:*:*:*"];
     actions := ["logs:PutLogEvents"; "logs:CreateLogStream";
                 "logs:DescribeLogGroups"; "logs:DescribeLogStreams"];
     conditions := [] |}.


(** Reading a tag mapping back from what [renderTags] returns: the pairs
    under the key [Tags], each an object of a string [Key] and a string
    [Value]. *)
Definition pair_of_object (v : JsValue) : option (string * string) :=
  match v with
  | JsObject [(k1, JsString key); (k2, JsString val)] =>
      if ((k1 =? "Key") && (k2 =? "Value"))%string then Some (key, val) else None
  | _ => None
  end.

Fixpoint pairs_of_objects (items : list JsValue) : option StringMap :=
  match items with
  | [] => Some []
  | item :: rest =>
      match pair_of_object item, pairs_of_objects rest with
      | Some kv, Some kvs => Some (kv :: kvs)
      | _, _ => None
      end
  end.

Definition tags_of_rendered (v : JsValue) : option StringMap :=
  match v with
  | JsObject [(k, JsArray items)] =>
      if (k =? "Tags")%string then pairs_of_objects items else None
  | _ => None
  end.

(** *** [EmrContainersCreateVirtualCluster], continued *)

Module CreateVirtualClusterTask.

(** [eks.ICluster], through the name of the cluster. *)
Record ICluster : Type := mkCluster { clusterName : string }.

(** [EksClusterInput.fromCluster] and [EksClusterInput.fromTaskInput]. *)
Definition fromCluster (cluster : ICluster) : CreateVirtualCluster.EksClusterInput :=
  {| CreateVirtualCluster.clusterName := JsString (clusterName cluster) |}.

Definition fromTaskInput (taskInput : TaskInput) : CreateVirtualCluster.EksClusterInput :=
  {| CreateVirtualCluster.clusterName := value taskInput |}.

(** [ContainerProviderTypes.EKS]. *)
Definition EKS : string := "EKS".

(** The object literal that [_renderTask] hands to [renderObject];
    [uniqueId] is what [cdk.Names.uniqueId(this)] returns for the task. *)
Definition parametersObject (uniqueId : string)
    (t : CreateVirtualCluster.EmrContainersCreateVirtualCluster) : JsValue :=
  let props := CreateVirtualCluster.this_props t in
  JsObject
    [ ("Name",
       JsString (match CreateVirtualCluster.virtuaClusterName props with
                 | Some name => name
                 | None => uniqueId
                 end));
      ("ContainerProvider",
       JsObject
         [ ("Id", CreateVirtualCluster.clusterName (CreateVirtualCluster.eksCluster props));
           ("Info",
            JsObject
              [("EksInfo",
                JsObject
                  [("Namespace",
                    JsString (match CreateVirtualCluster.eksNamespace props with
                              | Some namespace => namespace
                              | None => "default"
                              end))])]);
           ("Type", JsString EKS) ]);
      ("Tags",
       match CreateVirtualCluster.tags props with
       | Some tg => JsObject (map (fun kv => (fst kv, JsString (snd kv))) tg)
       | None => JsUndefined
       end) ].

(** [_renderTask]. *)
Definition _renderTask (uniqueId : string)
    (t : CreateVirtualCluster.EmrContainersCreateVirtualCluster) : JsValue :=
  JsObject
    [ ("Resource",
       JsString (integrationResourceArn "emr-containers" "createVirtualCluster"
                   (CreateVirtualCluster.this_integrationPattern t)));
      ("Parameters", renderObject (parametersObject uniqueId t)) ].

End CreateVirtualClusterTask.

(** More sample specifications. *)
Module MoreCases.

Import Samples.

(** A caller's own log group, and nothing else about monitoring. *)
Definition own_logGroup : ILogGroup := mkLogGroup "/team/jobs".

Definition own_logGroup_props : EmrContainersStartJobRunProps :=
  {| integrationPattern := None;
     virtualClusterId := fromText "abc123";
     jobName := None;
     executionRole := Some jobRole;
     releaseLabel := EMR_6_2_0;
     applicationConfig := None;
     jobDriver := {| sparkSubmitJobDriver := Some driver |};
     monitoring :=
       Some {| logging := None;
               logGroup := Some own_logGroup;
               logStreamNamePrefix := Some "run-";
               logBucket := None;
               persistentAppUI := None |};
     tags := None |}.

Definition own_logGroup_task : EmrContainersStartJobRun :=
  {| this_props := own_logGroup_props;
     this_integrationPattern := RUN_JOB;
     this_role := jobRole;
     this_logGroup := Some (newLogGroup "Task");
     this_logBucket := None;
     rolePolicy := [logsStatement];
     taskPolicies := createPolicyStatements own_logGroup_props RUN_JOB jobRole |}.

(** Entry point arguments read from the state input. *)
Definition reference_arguments_props : EmrContainersStartJobRunProps :=
  with_driver
    (Some {| entryPoint := fromText "s3://bucket/main.py";
             entryPointArguments := Some (fromJsonPathAt "$.Arguments");
             sparkSubmitParameters := None |})
    literal_props.




(** A node with too many properties after a node whose nested list is too
    long. *)
Definition crowded_both : list ApplicationConfiguration :=
  [ mkApplicationConfiguration SPARK (Some (manyNodes 101)) None;
    mkApplicationConfiguration SPARK_DEFAULTS None (Some (manyProperties 101)) ].

(** A virtual cluster on a named EKS cluster, with a tag. *)
Definition create_cluster_props
  : CreateVirtualCluster.EmrContainersCreateVirtualClusterProps :=
  {| CreateVirtualCluster.integrationPattern := Some REQUEST_RESPONSE;
     CreateVirtualCluster.eksCluster :=
       CreateVirtualClusterTask.fromTaskInput (fromText "test-eks");
     CreateVirtualCluster.eksNamespace := Some "spark";
     CreateVirtualCluster.virtuaClusterName := None;
     CreateVirtualCluster.tags := Some [("team", "data")] |}.

Definition create_cluster_task
  : CreateVirtualCluster.EmrContainersCreateVirtualCluster :=
  {| CreateVirtualCluster.this_props := create_cluster_props;
     CreateVirtualCluster.this_integrationPattern := REQUEST_RESPONSE;
     CreateVirtualCluster.taskPolicies := CreateVirtualCluster.createPolicyStatements |}.



End MoreCases.

(** * Properties *)

(** ** Concrete runs *)

Example toString_array :
  toString (JsArray [JsString "a"; JsNumber 12; JsNull; JsBool true]) = "a,12,,true".
Proof. reflexivity. Qed.

Example Z_to_string_0 : Z_to_string 0 = "0".
Proof. reflexivity. Qed.

Example Z_to_string_101 : Z_to_string 101 = "101".
Proof. reflexivity. Qed.

Example renderObject_path :
  renderObject (JsObject [("Id", JsEncodedPath "${Token[Id.7]}" "$.VirtualClusterId");
                          ("Name", JsUndefined)])
  = JsObject [("Id.$", JsString "$.VirtualClusterId")].
Proof. reflexivity. Qed.

Example constructor_literal :
  constructor "Task" Samples.literal_props = Ok Samples.literal_task.
Proof. reflexivity. Qed.

Example constructor_reference :
  constructor "Task" Samples.reference_props = Ok Samples.reference_task.
Proof. reflexivity. Qed.

Example constructor_generated_role :
  constructor "Task" (Samples.with_role None Samples.literal_props) = Throw JsTypeError.
Proof. reflexivity. Qed.

Example constructor_reference_without_role :
  constructor "Task" (Samples.with_role None Samples.reference_props)
  = Throw ExecutionRoleUndefined.
Proof. reflexivity. Qed.

Example constructor_callback_mode :
  option_map message
    (match constructor "Task" (Samples.with_pattern WAIT_FOR_TASK_TOKEN Samples.literal_props) with
     | Throw e => Some e
     | Ok _ => None
     end)
  = Some "Unsupported service integration pattern. Supported Patterns: REQUEST_RESPONSE,RUN_JOB. Received: WAIT_FOR_TASK_TOKEN".
Proof. reflexivity. Qed.

Example render_literal :
  _renderTask Samples.literal_task = Ok Cases.literal_doc.
Proof. reflexivity. Qed.

(** ** The result monad *)

Lemma bind_ok_inv {A B : Type} (c : Result A) (k : A -> Result B) (b : B) :
  bind c k = Ok b -> exists a, c = Ok a /\ k a = Ok b.
Proof.
  destruct c as [a | e]; simpl; intros H.
  - exists a. split; [reflexivity | exact H].
  - discriminate H.
Qed.

Lemma bind_throw_inv {A B : Type} (c : Result A) (k : A -> Result B) (e : Error) :
  bind c k = Throw e -> c = Throw e \/ exists a, c = Ok a /\ k a = Throw e.
Proof.
  destruct c as [a | e']; simpl; intros H.
  - right. exists a. split; [reflexivity | exact H].
  - left. injection H as ->. reflexivity.
Qed.

Lemma throw_if_ok (c : bool) (e : Error) : throw_if c e = Ok tt <-> c = false.
Proof. destruct c; simpl; split; intros H; try reflexivity; discriminate H. Qed.

Lemma throw_if_throw (c : bool) (e e' : Error) :
  throw_if c e = Throw e' <-> c = true /\ e' = e.
Proof.
  destruct c; simpl; split.
  - intros H. injection H as <-. split; reflexivity.
  - intros [_ ->]. reflexivity.
  - intros H. discriminate H.
  - intros [H _]. discriminate H.
Qed.

(** ** The constructor, step by step *)

(** What a successful construction went through, and what it built. *)
Lemma constructor_ok_inv (id : string) (props : EmrContainersStartJobRunProps)
    (t : EmrContainersStartJobRun) :
  constructor id props = Ok t ->
  exists role granted,
    executionRole props = Some role /\
    validatePatternSupported (requestedPattern props) SUPPORTED_INTEGRATION_PATTERNS = Ok tt /\
    check_applicationConfig props = Ok tt /\
    check_entryPoint props = Ok tt /\
    check_entryPointArguments_type props = Ok tt /\
    check_entryPointArguments_length props = Ok tt /\
    check_sparkSubmitParameters props = Ok tt /\
    check_executionRole props = Ok tt /\
    t = {| this_props := props;
           this_integrationPattern := requestedPattern props;
           this_role := role;
           this_logGroup := monitoringLogGroup id (monitoring props);
           this_logBucket := monitoringLogBucket id (monitoring props);
           rolePolicy := granted;
           taskPolicies := createPolicyStatements props (requestedPattern props) role |}.
Proof.
  unfold constructor. fold (requestedPattern props). intros H.
  apply bind_ok_inv in H as [[] [H1 H]].
  apply bind_ok_inv in H as [[] [H2 H]].
  apply bind_ok_inv in H as [[] [H3 H]].
  apply bind_ok_inv in H as [[] [H4 H]].
  apply bind_ok_inv in H as [[] [H5 H]].
  apply bind_ok_inv in H as [[] [H6 H]].
  apply bind_ok_inv in H as [[] [H7 H]].
  cbv zeta in H.
  apply bind_ok_inv in H as [role [Hrole H]].
  apply bind_ok_inv in H as [granted [Hgranted H]].
  destruct (executionRole props) as [r |] eqn:Hr.
  - injection Hrole as ->. injection H as <-.
    exists role, granted. repeat (split; [assumption || reflexivity |]). reflexivity.
  - discriminate Hrole.
Qed.

(** The statements stored on a compiled task are the ones [derive]
    recomputes. *)
Lemma constructor_taskPolicies (id : string) (props : EmrContainersStartJobRunProps)
    (t : EmrContainersStartJobRun) :
  constructor id props = Ok t -> taskPolicies t = derive t.
Proof.
  intros H. apply constructor_ok_inv in H as (role & granted & _ & _ & _ & _ & _ & _ & _ & _ & ->).
  reflexivity.
Qed.

(** ** Policy statements *)

(** C1 (amended).  Whatever the specification, in the fire-and-forget mode
    [derive] returns exactly one statement, for [emr-containers:StartJobRun];
    in the synchronous mode it returns that statement followed by exactly one
    more, which permits both [emr-containers:DescribeJobRun] and
    [emr-containers:CancelJobRun], on the wildcard when the cluster id is a
    runtime reference and on the job runs of the cluster
    ([<id>/jobruns/*]) when it is a literal. *)
Theorem derive_by_mode (t : EmrContainersStartJobRun) :
  let id := value (virtualClusterId (this_props t)) in
  let scope name :=
    FormatArn {| service := "emr-containers"; region := None;
                 resource := "/virtualclusters"; resourceName := name |} in
  let primary :=
    {| resources := [scope (if isEncodedJsonPath id then JsString "*" else id)];
       actions := ["emr-containers:StartJobRun"];
       conditions :=
         [("StringEquals", [("emr-containers:ExecutionRoleArn", roleArn (this_role t))])] |} in
  let followUp :=
    {| resources := [scope (if isEncodedJsonPath id then JsString "*"
                            else JsString (toString id ++ "/jobruns/*"))];
       actions := ["emr-containers:DescribeJobRun"; "emr-containers:CancelJobRun"];
       conditions := [] |} in
  (this_integrationPattern t = REQUEST_RESPONSE -> derive t = [primary]) /\
  (this_integrationPattern t = RUN_JOB -> derive t = [primary; followUp]).
Proof.
  cbv zeta. unfold derive, createPolicyStatements.
  split; intros ->; reflexivity.
Qed.

Lemma derive_by_mode_witness :
  derive Samples.literal_task
  = [ {| resources :=
           [FormatArn {| service := "emr-containers"; region := None;
                         resource := "/virtualclusters";
                         resourceName := JsString "abc123" |}];
         actions := ["emr-containers:StartJobRun"];
         conditions :=
           [("StringEquals",
             [("emr-containers:ExecutionRoleArn",
               "arn:aws:iam::123456789012:role/job-execution")])] |};
      {| resources :=
           [FormatArn {| service := "emr-containers"; region := None;
                         resource := "/virtualclusters";
                         resourceName := JsString "abc123/jobruns/*" |}];
         actions := ["emr-containers:DescribeJobRun"; "emr-containers:CancelJobRun"];
         conditions := [] |} ].
Proof.
  exact (proj2 (derive_by_mode Samples.literal_task) eq_refl).
Defined.

(** C1 as stated fails: for a valid synchronous specification with a
    literal cluster id, [derive] returns two statements, not three, and the
    second is scoped to the cluster's job runs rather than to the cluster. *)
Lemma derive_run_job_two_statements :
  constructor "Task" Samples.literal_props = Ok Samples.literal_task /\
  this_integrationPattern Samples.literal_task = RUN_JOB /\
  List.length (derive Samples.literal_task) = 2%nat /\
  map actions (derive Samples.literal_task)
  = [ ["emr-containers:StartJobRun"];
      ["emr-containers:DescribeJobRun"; "emr-containers:CancelJobRun"] ] /\
  map resources (derive Samples.literal_task)
  = [ [FormatArn {| service := "emr-containers"; region := None;
                    resource := "/virtualclusters";
                    resourceName := JsString "abc123" |}];
      [FormatArn {| service := "emr-containers"; region := None;
                    resource := "/virtualclusters";
                    resourceName := JsString "abc123/jobruns/*" |}] ].
Proof. repeat split. Qed.





(** ** Configuration trees *)

(** Induction over a configuration tree, with the hypothesis on every child. *)
Lemma ApplicationConfiguration_tree_ind (P : ApplicationConfiguration -> Prop) :
  (forall c props, P (mkApplicationConfiguration c None props)) ->
  (forall c elements props,
      Forall P elements -> P (mkApplicationConfiguration c (Some elements) props)) ->
  forall element, P element.
Proof.
  intros Hleaf Hnode.
  fix IH 1.
  intros [c [elements |] props].
  - apply Hnode.
    induction elements as [| x rest IHrest].
    + constructor.
    + constructor; [apply IH | exact IHrest].
  - apply Hleaf.
Qed.

Lemma validateNestedConfig_eq (element : ApplicationConfiguration) :
  validateNestedConfig element = validateAppConfigLength (nestedConfig element).
Proof. destruct element; reflexivity. Qed.

Lemma forEach_throw_in {A : Type} (f : A -> Result unit) (xs : list A) (x : A) (e : Error) :
  In x xs -> f x = Throw e -> exists e', forEach f xs = Throw e'.
Proof.
  induction xs as [| y rest IH]; intros Hin Hf.
  - destruct Hin.
  - simpl. destruct (f y) as [[] | e0] eqn:Hy.
    + destruct Hin as [-> | Hin].
      * rewrite Hf in Hy. discriminate Hy.
      * simpl. apply IH; assumption.
    + exists e0. reflexivity.
Qed.

Lemma forEach_throw_inv {A : Type} (f : A -> Result unit) (xs : list A) (e : Error) :
  forEach f xs = Throw e -> exists x, In x xs /\ f x = Throw e.
Proof.
  induction xs as [| y rest IH]; simpl; intros H.
  - discriminate H.
  - destruct (f y) as [[] | e0] eqn:Hy; simpl in H.
    + destruct (IH H) as [x [Hin Hx]]. exists x. split; [right; exact Hin | exact Hx].
    + injection H as ->. exists y. split; [left; reflexivity | exact Hy].
Qed.

Lemma validateAppConfigPropertiesLength_throw (element : ApplicationConfiguration) (e : Error) :
  validateAppConfigPropertiesLength element = Throw e <->
  exists p, properties element = Some p /\
            (100 < Z.of_nat (List.length p))%Z /\
            e = AppConfigPropertiesLength (properties_length p).
Proof.
  unfold validateAppConfigPropertiesLength, Object_keys.
  destruct (properties element) as [p |].
  - rewrite throw_if_throw, length_map, Z.ltb_lt. split.
    + intros [H ->]. exists p. repeat split. exact H.
    + intros [p' [Hp [H ->]]]. injection Hp as <-. split; [exact H | reflexivity].
  - split; [intros H; discriminate H | intros [p [H _]]; discriminate H].
Qed.

(** Whatever [validateAppConfigLength] throws, the tree is oversized and the
    error is one of the two errors of the limits. *)
Lemma validateAppConfigLength_throw_inv (elements : list ApplicationConfiguration) (e : Error) :
  validateAppConfigLength (Some elements) = Throw e ->
  Oversized elements /\ is_appConfig_error e.
Proof.
  revert e.
  assert (Hnode : forall element e,
             validateNestedConfig element = Throw e ->
             exists nested, nestedConfig element = Some nested /\
                            Oversized nested /\ is_appConfig_error e).
  { intros element.
    induction element as [c props | c kids props IH]
      using ApplicationConfiguration_tree_ind; intros e H.
    - discriminate H.
    - exists kids. split; [reflexivity |].
      simpl in H. unfold validateAppConfigLength_body in H.
      destruct (100 <? Z.of_nat (List.length kids))%Z eqn:Hlen.
      + injection H as <-. split; [| exact I].
        apply Oversized_level. apply Z.ltb_lt. exact Hlen.
      + apply bind_throw_inv in H as [H | [[] [_ H]]].
        * apply forEach_throw_inv in H as [x [Hin Hx]].
          apply validateAppConfigPropertiesLength_throw in Hx as [p [Hp [Hn ->]]].
          split; [| exact I].
          exact (Oversized_properties kids x p Hin Hp Hn).
        * apply forEach_throw_inv in H as [x [Hin Hx]].
          rewrite Forall_forall in IH.
          destruct (IH x Hin e Hx) as [nested [Hnested [Hover Hkind]]].
          split; [| exact Hkind].
          exact (Oversized_nested kids x nested Hin Hnested Hover). }
  intros e H.
  destruct (Hnode (mkApplicationConfiguration SPARK (Some elements) None) e H)
    as [nested [Hnested Hrest]].
  injection Hnested as <-. exact Hrest.
Qed.

(** An oversized tree is rejected. *)
Lemma validateAppConfigLength_oversized (elements : list ApplicationConfiguration) :
  Oversized elements -> exists e, validateAppConfigLength (Some elements) = Throw e.
Proof.
  induction 1 as [elements Hlen | elements element p Hin Hp Hlen
                  | elements element nested Hin Hnested Hover IH];
    unfold validateAppConfigLength, validateAppConfigLength_body.
  - apply Z.ltb_lt in Hlen. rewrite Hlen. eexists. reflexivity.
  - destruct (100 <? Z.of_nat (List.length elements))%Z; [eexists; reflexivity |].
    assert (Hthrow : validateAppConfigPropertiesLength element
                     = Throw (AppConfigPropertiesLength (properties_length p))).
    { apply validateAppConfigPropertiesLength_throw. exists p. repeat split; assumption. }
    destruct (forEach_throw_in _ _ _ _ Hin Hthrow) as [e' ->].
    exists e'. reflexivity.
  - destruct (100 <? Z.of_nat (List.length elements))%Z; [eexists; reflexivity |].
    destruct (forEach validateAppConfigPropertiesLength elements) as [[] | e0];
      [| exists e0; reflexivity].
    destruct IH as [e He].
    assert (Hthrow : validateNestedConfig element = Throw e).
    { rewrite validateNestedConfig_eq, Hnested. exact He. }
    destruct (forEach_throw_in _ _ _ _ Hin Hthrow) as [e' He'].
    exists e'. simpl. exact He'.
Qed.

(** ** What each step of the constructor can throw *)

Lemma IntegrationPattern_eqb_eq (a b : IntegrationPattern) :
  IntegrationPattern_eqb a b = true <-> a = b.
Proof. destruct a, b; simpl; split; intros H; try reflexivity; discriminate H. Qed.

Lemma existsb_IntegrationPattern (p : IntegrationPattern) (l : list IntegrationPattern) :
  existsb (IntegrationPattern_eqb p) l = true <-> In p l.
Proof.
  rewrite existsb_exists. split.
  - intros [x [Hin Heq]]. apply IntegrationPattern_eqb_eq in Heq. subst x. exact Hin.
  - intros Hin. exists p. split; [exact Hin | apply IntegrationPattern_eqb_eq; reflexivity].
Qed.

Lemma validatePatternSupported_ok (p : IntegrationPattern) (l : list IntegrationPattern) :
  validatePatternSupported p l = Ok tt <-> In p l.
Proof.
  unfold validatePatternSupported.
  rewrite throw_if_ok, negb_false_iff. apply existsb_IntegrationPattern.
Qed.

Lemma validatePatternSupported_throw (p : IntegrationPattern) (l : list IntegrationPattern)
    (e : Error) :
  validatePatternSupported p l = Throw e <-> ~ In p l /\ e = UnsupportedPattern l p.
Proof.
  unfold validatePatternSupported.
  rewrite throw_if_throw, negb_true_iff, <- existsb_IntegrationPattern.
  rewrite not_true_iff_false. reflexivity.
Qed.

Lemma check_applicationConfig_throw (props : EmrContainersStartJobRunProps) (e : Error) :
  check_applicationConfig props = Throw e ->
  exists config, applicationConfig props = Some config /\
                 Oversized config /\ is_appConfig_error e.
Proof.
  unfold check_applicationConfig. destruct (applicationConfig props) as [config |]; intros H.
  - exists config. split; [reflexivity |]. apply validateAppConfigLength_throw_inv. exact H.
  - discriminate H.
Qed.

Lemma check_entryPoint_throw (props : EmrContainersStartJobRunProps) (e : Error) :
  check_entryPoint props = Throw e -> exists n, e = EntryPointLength n.
Proof.
  unfold check_entryPoint.
  destruct (sparkSubmitJobDriver (jobDriver props)) as [driver |]; intros H.
  - apply throw_if_throw in H as [_ ->]. eexists. reflexivity.
  - discriminate H.
Qed.

Lemma check_entryPointArguments_type_throw (props : EmrContainersStartJobRunProps) (e : Error) :
  check_entryPointArguments_type props = Throw e -> exists x, e = EntryPointArgumentsType x.
Proof.
  unfold check_entryPointArguments_type.
  destruct (sparkSubmitJobDriver (jobDriver props)) as [driver |]; intros H;
    [destruct (entryPointArguments driver) as [args |] |]; try discriminate H.
  apply throw_if_throw in H as [_ ->]. eexists. reflexivity.
Qed.

Lemma check_entryPointArguments_length_throw (props : EmrContainersStartJobRunProps) (e : Error) :
  check_entryPointArguments_length props = Throw e -> exists n, e = EntryPointArgumentsLength n.
Proof.
  unfold check_entryPointArguments_length.
  destruct (sparkSubmitJobDriver (jobDriver props)) as [driver |]; intros H;
    [destruct (entryPointArguments driver) as [args |] |]; try discriminate H.
  apply throw_if_throw in H as [_ ->]. eexists. reflexivity.
Qed.

Lemma check_sparkSubmitParameters_throw (props : EmrContainersStartJobRunProps) (e : Error) :
  check_sparkSubmitParameters props = Throw e -> exists n, e = SparkSubmitParametersLength n.
Proof.
  unfold check_sparkSubmitParameters.
  destruct (sparkSubmitJobDriver (jobDriver props)) as [driver |]; intros H;
    [destruct (sparkSubmitParameters driver) as [parameters |] |]; try discriminate H.
  apply throw_if_throw in H as [_ ->]. eexists. reflexivity.
Qed.

Lemma check_executionRole_throw (props : EmrContainersStartJobRunProps) (e : Error) :
  check_executionRole props = Throw e -> e = ExecutionRoleUndefined.
Proof.
  unfold check_executionRole. intros H. apply throw_if_throw in H as [_ ->]. reflexivity.
Qed.

(** A failed construction failed in one of its steps. *)
Lemma constructor_throw_inv (id : string) (props : EmrContainersStartJobRunProps) (e : Error) :
  constructor id props = Throw e ->
  validatePatternSupported (requestedPattern props) SUPPORTED_INTEGRATION_PATTERNS = Throw e \/
  check_applicationConfig props = Throw e \/
  check_entryPoint props = Throw e \/
  check_entryPointArguments_type props = Throw e \/
  check_entryPointArguments_length props = Throw e \/
  check_sparkSubmitParameters props = Throw e \/
  check_executionRole props = Throw e \/
  e = JsTypeError.
Proof.
  unfold constructor. fold (requestedPattern props). intros H.
  apply bind_throw_inv in H as [H | [[] [_ H]]]; [tauto |].
  apply bind_throw_inv in H as [H | [[] [_ H]]]; [tauto |].
  apply bind_throw_inv in H as [H | [[] [_ H]]]; [tauto |].
  apply bind_throw_inv in H as [H | [[] [_ H]]]; [tauto |].
  apply bind_throw_inv in H as [H | [[] [_ H]]]; [tauto |].
  apply bind_throw_inv in H as [H | [[] [_ H]]]; [tauto |].
  apply bind_throw_inv in H as [H | [[] [_ H]]]; [tauto |].
  cbv zeta in H. do 7 right.
  destruct (executionRole props) as [r |]; simpl in H.
  - discriminate H.
  - injection H as <-. reflexivity.
Qed.

(** The constructor fails at the first step that fails. *)
Lemma constructor_throw_at_pattern (id : string) (props : EmrContainersStartJobRunProps)
    (e : Error) :
  validatePatternSupported (requestedPattern props) SUPPORTED_INTEGRATION_PATTERNS = Throw e ->
  constructor id props = Throw e.
Proof.
  intros H. unfold constructor. fold (requestedPattern props). rewrite H. reflexivity.
Qed.

Lemma constructor_throw_at_entryPoint (id : string) (props : EmrContainersStartJobRunProps)
    (e : Error) :
  validatePatternSupported (requestedPattern props) SUPPORTED_INTEGRATION_PATTERNS = Ok tt ->
  check_applicationConfig props = Ok tt ->
  check_entryPoint props = Throw e ->
  constructor id props = Throw e.
Proof.
  intros H1 H2 H3. unfold constructor. fold (requestedPattern props).
  rewrite H1, H2, H3. reflexivity.
Qed.



Lemma constructor_throw_at_executionRole (id : string) (props : EmrContainersStartJobRunProps)
    (e : Error) :
  validatePatternSupported (requestedPattern props) SUPPORTED_INTEGRATION_PATTERNS = Ok tt ->
  check_applicationConfig props = Ok tt ->
  check_entryPoint props = Ok tt ->
  check_entryPointArguments_type props = Ok tt ->
  check_entryPointArguments_length props = Ok tt ->
  check_sparkSubmitParameters props = Ok tt ->
  check_executionRole props = Throw e ->
  constructor id props = Throw e.
Proof.
  intros H1 H2 H3 H4 H5 H6 H7. unfold constructor. fold (requestedPattern props).
  rewrite H1, H2, H3, H4, H5, H6, H7. reflexivity.
Qed.

(** An error of a given step can only come from that step. *)
Ltac from_other_step :=
  match goal with
  | H : validatePatternSupported _ _ = Throw _ |- _ =>
      apply validatePatternSupported_throw in H as [_ H]; discriminate H
  | H : check_applicationConfig _ = Throw _ |- _ =>
      apply check_applicationConfig_throw in H as (? & _ & _ & H); destruct H
  | H : check_entryPoint _ = Throw _ |- _ =>
      apply check_entryPoint_throw in H as [? H]; discriminate H
  | H : check_entryPointArguments_type _ = Throw _ |- _ =>
      apply check_entryPointArguments_type_throw in H as [? H]; discriminate H
  | H : check_entryPointArguments_length _ = Throw _ |- _ =>
      apply check_entryPointArguments_length_throw in H as [? H]; discriminate H
  | H : check_sparkSubmitParameters _ = Throw _ |- _ =>
      apply check_sparkSubmitParameters_throw in H as [? H]; discriminate H
  | H : check_executionRole _ = Throw _ |- _ =>
      apply check_executionRole_throw in H; discriminate H
  | H : _ = JsTypeError |- _ => discriminate H
  end.

Lemma constructor_entryPoint_error (id : string) (props : EmrContainersStartJobRunProps)
    (n : option Z) :
  constructor id props = Throw (EntryPointLength n) ->
  check_entryPoint props = Throw (EntryPointLength n).
Proof.
  intros H.
  apply constructor_throw_inv in H as [H | [H | [H | [H | [H | [H | [H | H]]]]]]];
    try exact H; from_other_step.
Qed.

Lemma constructor_entryPointArguments_type_error (id : string)
    (props : EmrContainersStartJobRunProps) (x : JsValue) :
  constructor id props = Throw (EntryPointArgumentsType x) ->
  check_entryPointArguments_type props = Throw (EntryPointArgumentsType x).
Proof.
  intros H.
  apply constructor_throw_inv in H as [H | [H | [H | [H | [H | [H | [H | H]]]]]]];
    try exact H; from_other_step.
Qed.


(** ** The integration-pattern gate *)

(** C5.  A mode outside the supported set of the task type makes the
    constructor fail with the unsupported-mode error whatever the other
    fields hold: the gate is the first step, so no field-level check is
    reached.  This holds for [EmrContainersStartJobRun] and, with its own
    supported set, for [EmrContainersCreateVirtualCluster]. *)
Theorem unsupported_pattern_precedes :
  (forall (id : string) (props : EmrContainersStartJobRunProps),
      ~ In (requestedPattern props) SUPPORTED_INTEGRATION_PATTERNS ->
      constructor id props
      = Throw (UnsupportedPattern SUPPORTED_INTEGRATION_PATTERNS (requestedPattern props))) /\
  (forall props : CreateVirtualCluster.EmrContainersCreateVirtualClusterProps,
      ~ In (CreateVirtualCluster.requestedPattern props)
           CreateVirtualCluster.SUPPORTED_INTEGRATION_PATTERNS ->
      CreateVirtualCluster.constructor props
      = Throw (UnsupportedPattern CreateVirtualCluster.SUPPORTED_INTEGRATION_PATTERNS
                                  (CreateVirtualCluster.requestedPattern props))) /\
  (forall supported received,
      kind (UnsupportedPattern supported received) = UnsupportedModeError).
Proof.
  split; [| split].
  - intros id props Hnot. apply constructor_throw_at_pattern.
    apply validatePatternSupported_throw. split; [exact Hnot | reflexivity].
  - intros props Hnot.
    unfold CreateVirtualCluster.constructor.
    fold (CreateVirtualCluster.requestedPattern props).
    assert (H : validatePatternSupported (CreateVirtualCluster.requestedPattern props)
                  CreateVirtualCluster.SUPPORTED_INTEGRATION_PATTERNS
                = Throw (UnsupportedPattern CreateVirtualCluster.SUPPORTED_INTEGRATION_PATTERNS
                           (CreateVirtualCluster.requestedPattern props))).
    { apply validatePatternSupported_throw. split; [exact Hnot | reflexivity]. }
    rewrite H. reflexivity.
  - reflexivity.
Qed.

Lemma not_in_supported_callback : ~ In WAIT_FOR_TASK_TOKEN SUPPORTED_INTEGRATION_PATTERNS.
Proof. simpl. intros [H | [H | []]]; discriminate H. Qed.

Lemma not_in_supported_sync :
  ~ In RUN_JOB CreateVirtualCluster.SUPPORTED_INTEGRATION_PATTERNS.
Proof. simpl. intros [H | []]. discriminate H. Qed.

Lemma unsupported_pattern_precedes_witness :
  (check_entryPoint Cases.callback_invalid_props = Throw (EntryPointLength (Some 0%Z)) /\
   check_executionRole Cases.callback_invalid_props = Throw ExecutionRoleUndefined /\
   constructor "Task" Cases.callback_invalid_props
   = Throw (UnsupportedPattern [REQUEST_RESPONSE; RUN_JOB] WAIT_FOR_TASK_TOKEN)) /\
  CreateVirtualCluster.constructor Cases.create_cluster_sync_props
  = Throw (UnsupportedPattern [REQUEST_RESPONSE] RUN_JOB).
Proof.
  split; [split; [reflexivity | split; [reflexivity |]] |].
  - exact (proj1 unsupported_pattern_precedes "Task" Cases.callback_invalid_props
             not_in_supported_callback).
  - exact (proj1 (proj2 unsupported_pattern_precedes) Cases.create_cluster_sync_props
             not_in_supported_sync).
Defined.

(** ** Field-level checks *)

(** C6.  For a literal entry point [s], the entry-point check fails, with
    the length error that reports the length of [s], exactly when that
    length is 0 or above 256, and passes exactly when it lies in [1,256];
    once the two earlier steps have passed, the constructor fails with that
    error in exactly the same cases.  An entry point that is a runtime
    reference passes the check whatever it holds. *)
Theorem entryPoint_length_check :
  (forall (id : string) (props : EmrContainersStartJobRunProps)
          (driver : SparkSubmitJobDriver) (s : string),
      sparkSubmitJobDriver (jobDriver props) = Some driver ->
      value (entryPoint driver) = JsString s ->
      let n := Z.of_nat (String.length s) in
      (check_entryPoint props = Throw (EntryPointLength (Some n)) <-> (n = 0 \/ 256 < n)%Z) /\
      (check_entryPoint props = Ok tt <-> (1 <= n <= 256)%Z) /\
      kind (EntryPointLength (Some n)) = LengthError /\
      (validatePatternSupported (requestedPattern props) SUPPORTED_INTEGRATION_PATTERNS = Ok tt ->
       check_applicationConfig props = Ok tt ->
       (constructor id props = Throw (EntryPointLength (Some n)) <-> (n = 0 \/ 256 < n)%Z))) /\
  (forall (props : EmrContainersStartJobRunProps) (driver : SparkSubmitJobDriver),
      sparkSubmitJobDriver (jobDriver props) = Some driver ->
      isEncodedJsonPath (value (entryPoint driver)) = true ->
      check_entryPoint props = Ok tt).
Proof.
  split.
  - intros id props driver s Hdriver Hvalue n.
    assert (Hcheck : check_entryPoint props
                     = throw_if ((256 <? n)%Z || (n <? 1)%Z) (EntryPointLength (Some n))).
    { unfold check_entryPoint. rewrite Hdriver. cbv zeta. rewrite Hvalue. reflexivity. }
    assert (Hthrow : check_entryPoint props = Throw (EntryPointLength (Some n))
                     <-> (n = 0 \/ 256 < n)%Z).
    { rewrite Hcheck, throw_if_throw, orb_true_iff, !Z.ltb_lt.
      split; [intros [H _] | intros H; split; [| reflexivity]]; subst n; lia. }
    split; [exact Hthrow | split; [| split; [reflexivity |]]].
    + rewrite Hcheck, throw_if_ok, orb_false_iff, !Z.ltb_ge. lia.
    + intros Hpattern Hconfig. rewrite <- Hthrow. split.
      * apply constructor_entryPoint_error.
      * apply constructor_throw_at_entryPoint; assumption.
  - intros props driver Hdriver Hpath.
    unfold check_entryPoint. rewrite Hdriver. cbv zeta. rewrite Hpath. reflexivity.
Qed.

Lemma entryPoint_length_check_witness :
  (constructor "Task" Cases.empty_entryPoint_props = Throw (EntryPointLength (Some 0%Z)) /\
   check_entryPoint Samples.literal_props = Ok tt) /\
  check_entryPoint Cases.reference_entryPoint_props = Ok tt.
Proof.
  split; [split |].
  - apply (proj1 entryPoint_length_check "Task" Cases.empty_entryPoint_props
             Cases.empty_entryPoint EmptyString eq_refl eq_refl);
      [reflexivity | reflexivity | left; reflexivity].
  - apply (proj1 entryPoint_length_check "Task" Samples.literal_props
             Samples.driver "s3://bucket/main.py" eq_refl eq_refl).
    simpl. lia.
  - exact (proj2 entryPoint_length_check Cases.reference_entryPoint_props _ eq_refl eq_refl).
Defined.




(** C7 (amended).  Without an execution role and with a virtual-cluster id
    that is a runtime reference, the execution-role check fails with the
    missing-execution-role error and the constructor fails whatever the
    other fields hold; it fails with that very error whenever the six
    earlier steps pass.  With a literal id, or with an execution role, the
    check passes. *)
Theorem missing_execution_role :
  (forall (id : string) (props : EmrContainersStartJobRunProps),
      executionRole props = None ->
      isEncodedJsonPath (value (virtualClusterId props)) = true ->
      check_executionRole props = Throw ExecutionRoleUndefined /\
      kind ExecutionRoleUndefined = MissingExecutionRoleError /\
      (exists e, constructor id props = Throw e) /\
      (validatePatternSupported (requestedPattern props) SUPPORTED_INTEGRATION_PATTERNS = Ok tt ->
       check_applicationConfig props = Ok tt ->
       check_entryPoint props = Ok tt ->
       check_entryPointArguments_type props = Ok tt ->
       check_entryPointArguments_length props = Ok tt ->
       check_sparkSubmitParameters props = Ok tt ->
       constructor id props = Throw ExecutionRoleUndefined)) /\
  (forall props : EmrContainersStartJobRunProps,
      isEncodedJsonPath (value (virtualClusterId props)) = false \/
      executionRole props <> None ->
      check_executionRole props = Ok tt).
Proof.
  split.
  - intros id props Hrole Hpath.
    assert (Hcheck : check_executionRole props = Throw ExecutionRoleUndefined).
    { unfold check_executionRole. rewrite Hrole, Hpath. reflexivity. }
    split; [exact Hcheck | split; [reflexivity | split]].
    + destruct (constructor id props) as [t | e] eqn:Hc.
      * apply constructor_ok_inv in Hc
          as (role & granted & _ & _ & _ & _ & _ & _ & _ & Hok & _).
        rewrite Hcheck in Hok. discriminate Hok.
      * exists e. reflexivity.
    + intros H1 H2 H3 H4 H5 H6.
      apply constructor_throw_at_executionRole; assumption.
  - intros props H. unfold check_executionRole. apply throw_if_ok.
    destruct H as [H | H].
    + rewrite H. apply andb_false_r.
    + destruct (executionRole props); [reflexivity | contradiction H; reflexivity].
Qed.

Lemma missing_execution_role_witness :
  constructor "Task" Cases.no_role_props = Throw ExecutionRoleUndefined /\
  check_executionRole Samples.literal_props = Ok tt.
Proof.
  split.
  - apply (proj1 missing_execution_role "Task" Cases.no_role_props eq_refl eq_refl);
      reflexivity.
  - apply (proj2 missing_execution_role Samples.literal_props). left. reflexivity.
Defined.

(** C7 as stated fails: with no execution role, a runtime-reference cluster
    id and an empty entry point, validation fails with the entry-point
    length error, not with the missing-execution-role error. *)
Lemma missing_execution_role_not_first :
  executionRole Cases.no_role_empty_entryPoint_props = None /\
  isEncodedJsonPath (value (virtualClusterId Cases.no_role_empty_entryPoint_props)) = true /\
  constructor "Task" Cases.no_role_empty_entryPoint_props
  = Throw (EntryPointLength (Some 0%Z)) /\
  kind (EntryPointLength (Some 0%Z)) = LengthError /\
  constructor "Task" Cases.no_role_empty_entryPoint_props <> Throw ExecutionRoleUndefined.
Proof.
  repeat split. intros H. discriminate H.
Qed.

(** ** Limits on configuration trees *)

(** C8, at the failing input.  A node with 101 properties is rejected, by
    the validator and by the constructor, but the message of the error ends
    in [undefined] instead of the size: it interpolates
    [appConfig.properties.length], and a mapping has no [length]. *)
Theorem properties_error_reports_undefined :
  List.length (manyProperties 101) = 101%nat /\
  validateAppConfigLength (Some Cases.crowded_node)
  = Throw (AppConfigPropertiesLength JsUndefined) /\
  constructor "Task" Cases.crowded_node_props
  = Throw (AppConfigPropertiesLength JsUndefined) /\
  message (AppConfigPropertiesLength JsUndefined)
  = "Application configuration properties must have 100 or fewer entries. Received undefined".
Proof. repeat split; vm_compute; reflexivity. Qed.

(** X1.  A configuration list is rejected exactly when some level of its
    tree, at any depth, has more than 100 entries or some node has more than
    100 properties; the error is then the one for the list or the one for
    the properties. *)
Theorem validateAppConfigLength_rejects_oversized (elements : list ApplicationConfiguration) :
  ((exists e, validateAppConfigLength (Some elements) = Throw e) <-> Oversized elements) /\
  (forall e, validateAppConfigLength (Some elements) = Throw e ->
             (exists n, e = AppConfigArrayLength n) \/
             (exists v, e = AppConfigPropertiesLength v)).
Proof.
  split; [split |].
  - intros [e H]. apply validateAppConfigLength_throw_inv in H. apply H.
  - apply validateAppConfigLength_oversized.
  - intros e H. apply validateAppConfigLength_throw_inv in H as [_ H].
    destruct e; try destruct H; [left | right]; eexists; reflexivity.
Qed.

Lemma Oversized_nest (depth : nat) (bottom : list ApplicationConfiguration) :
  Oversized bottom -> Oversized (nest depth bottom).
Proof.
  intros H. induction depth as [| d IH]; simpl.
  - exact H.
  - eapply Oversized_nested; [left; reflexivity | reflexivity | exact IH].
Qed.

(** X2.  A level of more than 100 siblings is rejected at whatever depth it
    sits below a chain of single-child nodes. *)
Theorem deep_level_rejected (depth : nat) (bottom : list ApplicationConfiguration) :
  (100 < Z.of_nat (List.length bottom))%Z ->
  exists e, validateAppConfigLength (Some (nest depth bottom)) = Throw e.
Proof.
  intros H. apply validateAppConfigLength_oversized, Oversized_nest, Oversized_level.
  exact H.
Qed.

Lemma deep_level_rejected_witness :
  exists e, validateAppConfigLength (Some Cases.deep_crowd) = Throw e.
Proof.
  apply (deep_level_rejected 3 (manyNodes 101)). vm_compute. reflexivity.
Defined.

Example deep_crowd_message :
  option_map message
    (match validateAppConfigLength (Some Cases.deep_crowd) with
     | Throw e => Some e
     | Ok _ => None
     end)
  = Some "Application configuration array must have 100 or fewer entries. Received 101".
Proof. vm_compute. reflexivity. Qed.

(** X3.  The message of the list error gives the bound and the number of
    entries received. *)
Theorem array_error_message (elements : list ApplicationConfiguration) :
  (100 < Z.of_nat (List.length elements))%Z ->
  validateAppConfigLength (Some elements)
  = Throw (AppConfigArrayLength (Z.of_nat (List.length elements))) /\
  message (AppConfigArrayLength (Z.of_nat (List.length elements)))
  = ("Application configuration array must have 100 or fewer entries. Received "
       ++ Z_to_string (Z.of_nat (List.length elements)))%string.
Proof.
  intros H. split; [| reflexivity].
  unfold validateAppConfigLength, validateAppConfigLength_body.
  apply Z.ltb_lt in H. rewrite H. reflexivity.
Qed.

Lemma array_error_message_witness :
  validateAppConfigLength (Some (manyNodes 101)) = Throw (AppConfigArrayLength 101).
Proof.
  apply (array_error_message (manyNodes 101)). vm_compute. reflexivity.
Defined.

(** ** Rendering *)

Lemma _renderTask_ok_inv (t : EmrContainersStartJobRun) (doc : JsValue) :
  _renderTask t = Ok doc ->
  exists applicationConfiguration,
    listMapper (applicationConfigPropertyToJson false) (applicationConfig (this_props t))
    = Ok applicationConfiguration /\
    (applicationConfig (this_props t) = None -> applicationConfiguration = JsUndefined) /\
    forall path,
      get_path ("Parameters" :: path) doc
      = get_path path (renderObject (parametersObject t applicationConfiguration)).
Proof.
  unfold _renderTask. intros H.
  apply bind_ok_inv in H as [ac [Hac H]]. injection H as <-.
  exists ac. split; [exact Hac | split].
  - intros Hnone. rewrite Hnone in Hac. injection Hac as <-. reflexivity.
  - intros path. reflexivity.
Qed.

Lemma mapM_flat_ok (elements : list ApplicationConfiguration) :
  Forall (fun element => nestedConfig element = None) elements ->
  exists items, mapM (applicationConfigPropertyToJson false) elements = Ok items.
Proof.
  induction 1 as [| [c nested props] rest Hx Hrest [items IH]].
  - eexists. reflexivity.
  - simpl in Hx. subst nested. eexists. simpl. simpl in IH. rewrite IH. reflexivity.
Qed.

(** Rendering succeeds when no top-level configuration has a nested list. *)
Lemma _renderTask_ok (t : EmrContainersStartJobRun) :
  (forall elements, applicationConfig (this_props t) = Some elements ->
                    Forall (fun element => nestedConfig element = None) elements) ->
  exists doc, _renderTask t = Ok doc.
Proof.
  intros H. unfold _renderTask, listMapper.
  destruct (applicationConfig (this_props t)) as [elements |]; [| eexists; reflexivity].
  destruct (mapM_flat_ok elements (H elements eq_refl)) as [items ->].
  eexists. reflexivity.
Qed.

(** Looking a key up in rendered fields. *)
Lemma rendered_skip (k k' : string) (v : JsValue) (rest : list (string * JsValue)) :
  (k' =? k)%string = false ->
  ((k' ++ ".$") =? k)%string = false ->
  get_property k (flat_map (renderField renderObject) ((k', v) :: rest))
  = get_property k (flat_map (renderField renderObject) rest).
Proof.
  intros H1 H2. cbn [flat_map]. unfold renderField at 1. cbn [fst snd].
  destruct v; cbn [app get_property]; rewrite ?H1, ?H2; reflexivity.
Qed.

Lemma rendered_undefined (k k' : string) (rest : list (string * JsValue)) :
  get_property k (flat_map (renderField renderObject) ((k', JsUndefined) :: rest))
  = get_property k (flat_map (renderField renderObject) rest).
Proof. reflexivity. Qed.

Lemma rendered_object (k : string) (o : list (string * JsValue))
    (rest : list (string * JsValue)) :
  get_property k (flat_map (renderField renderObject) ((k, JsObject o) :: rest))
  = Some (JsObject (flat_map (renderField renderObject) o)).
Proof.
  cbn [flat_map]. unfold renderField at 1. cbn [fst snd app get_property].
  rewrite String.eqb_refl. reflexivity.
Qed.

Lemma rendered_string (k s : string) (rest : list (string * JsValue)) :
  get_property k (flat_map (renderField renderObject) ((k, JsString s) :: rest))
  = Some (JsString s).
Proof.
  cbn [flat_map]. unfold renderField at 1. cbn [fst snd app get_property].
  rewrite String.eqb_refl. reflexivity.
Qed.

Lemma get_path_rendered (k : string) (path : list string) (fields : list (string * JsValue)) :
  get_path (k :: path) (renderObject (JsObject fields))
  = match get_property k (flat_map (renderField renderObject) fields) with
    | Some x => get_path path x
    | None => None
    end.
Proof. reflexivity. Qed.

Lemma get_path_object (k : string) (path : list string) (fields : list (string * JsValue)) :
  get_path (k :: path) (JsObject fields)
  = match get_property k fields with
    | Some x => get_path path x
    | None => None
    end.
Proof. reflexivity. Qed.

(** Walk a path through the rendered parameters, field by field. *)
Ltac walk :=
  repeat first
    [ rewrite get_path_rendered
    | rewrite rendered_object
    | rewrite rendered_string
    | rewrite rendered_skip by reflexivity
    | rewrite rendered_undefined
    | rewrite get_path_object
    | progress change (renderObject (JsObject ?o))
        with (JsObject (flat_map (renderField renderObject) o)) ].

Lemma parameters_overrides (t : EmrContainersStartJobRun) (ac : JsValue) (path : list string) :
  get_path ("ConfigurationOverrides" :: path) (renderObject (parametersObject t ac))
  = get_path path
      (renderObject
         (JsObject
            [ ("ApplicationConfiguration", ac);
              ("MonitoringConfiguration",
               JsObject
                 [ ("CloudWatchMonitoringConfiguration",
                    match this_logGroup t with
                    | Some g =>
                        JsObject
                          [ ("LogGroupName", JsString (logGroupName g));
                            ("LogStreamNamePrefix",
                             match monitoring (this_props t) with
                             | Some m => opt_string (logStreamNamePrefix m)
                             | None => JsUndefined
                             end) ]
                    | None => JsUndefined
                    end);
                   ("PersistentAppUI",
                    match monitoring (this_props t) with
                    | Some m =>
                        match persistentAppUI m with
                        | Some false => JsString "DISABLED"
                        | _ => JsString "ENABLED"
                        end
                    | None => JsString "ENABLED"
                    end);
                   ("S3MonitoringConfiguration",
                    match this_logBucket t with
                    | Some b => JsObject [("LogUri", JsString (s3UrlForObject b))]
                    | None => JsUndefined
                    end) ]);
              ("Tags",
               match tags (this_props t) with
               | Some tg => renderTags (Some tg)
               | None => JsUndefined
               end) ])).
Proof.
  unfold parametersObject. cbv zeta.
  rewrite get_path_rendered.
  do 5 (rewrite rendered_skip by reflexivity).
  rewrite rendered_object. reflexivity.
Qed.

Lemma parameters_driver (t : EmrContainersStartJobRun) (ac : JsValue) (path : list string) :
  get_path ("JobDriver" :: "SparkSubmitJobDriver" :: path)
           (renderObject (parametersObject t ac))
  = get_path path
      (renderObject
         (JsObject
            [ ("EntryPoint",
               match sparkSubmitJobDriver (jobDriver (this_props t)) with
               | Some d => value (entryPoint d)
               | None => JsUndefined
               end);
              ("EntryPointArguments",
               match sparkSubmitJobDriver (jobDriver (this_props t)) with
               | Some d =>
                   match entryPointArguments d with
                   | Some args => value args
                   | None => JsUndefined
                   end
               | None => JsUndefined
               end);
              ("SparkSubmitParameters",
               match sparkSubmitJobDriver (jobDriver (this_props t)) with
               | Some d => opt_string (sparkSubmitParameters d)
               | None => JsUndefined
               end) ])).
Proof.
  unfold parametersObject. cbv zeta.
  rewrite get_path_rendered.
  do 4 (rewrite rendered_skip by reflexivity).
  rewrite rendered_object.
  rewrite get_path_object.
  rewrite rendered_object. reflexivity.
Qed.

(** C3 (amended).  In the document rendered for a compiled task, an absent
    job name, absent entry point arguments, absent Spark submit parameters,
    an absent application configuration and absent tags leave no key behind,
    under the plain name or under the reference-suffixed one, and without
    monitoring options there is no CloudWatch and no S3 monitoring key.  The
    monitoring configuration itself is always rendered with
    [PersistentAppUI], which is ["ENABLED"] unless the option is [false]:
    without monitoring options it is exactly that one key.  The
    [SparkSubmitJobDriver] object is always rendered too, and is empty when
    no job driver is given. *)
Theorem absent_fields_omitted (id : string) (props : EmrContainersStartJobRunProps)
    (t : EmrContainersStartJobRun) (doc : JsValue) :
  constructor id props = Ok t ->
  _renderTask t = Ok doc ->
  (jobName props = None ->
   get_path ["Parameters"; "Name"] doc = None /\
   get_path ["Parameters"; "Name.$"] doc = None) /\
  ((forall d, sparkSubmitJobDriver (jobDriver props) = Some d ->
              entryPointArguments d = None) ->
   get_path ["Parameters"; "JobDriver"; "SparkSubmitJobDriver"; "EntryPointArguments"] doc
   = None /\
   get_path ["Parameters"; "JobDriver"; "SparkSubmitJobDriver"; "EntryPointArguments.$"] doc
   = None) /\
  ((forall d, sparkSubmitJobDriver (jobDriver props) = Some d ->
              sparkSubmitParameters d = None) ->
   get_path ["Parameters"; "JobDriver"; "SparkSubmitJobDriver"; "SparkSubmitParameters"] doc
   = None /\
   get_path ["Parameters"; "JobDriver"; "SparkSubmitJobDriver"; "SparkSubmitParameters.$"] doc
   = None) /\
  (applicationConfig props = None ->
   get_path ["Parameters"; "ConfigurationOverrides"; "ApplicationConfiguration"] doc = None /\
   get_path ["Parameters"; "ConfigurationOverrides"; "ApplicationConfiguration.$"] doc = None) /\
  (tags props = None ->
   get_path ["Parameters"; "ConfigurationOverrides"; "Tags"] doc = None /\
   get_path ["Parameters"; "ConfigurationOverrides"; "Tags.$"] doc = None) /\
  (monitoring props = None ->
   get_path ["Parameters"; "ConfigurationOverrides"; "MonitoringConfiguration"] doc
   = Some (JsObject [("PersistentAppUI", JsString "ENABLED")])) /\
  (exists ui,
      get_path ["Parameters"; "ConfigurationOverrides"; "MonitoringConfiguration";
                "PersistentAppUI"] doc = Some (JsString ui) /\
      (ui = "DISABLED" <->
       exists m, monitoring props = Some m /\ persistentAppUI m = Some false) /\
      (ui = "ENABLED" \/ ui = "DISABLED")) /\
  (sparkSubmitJobDriver (jobDriver props) = None ->
   get_path ["Parameters"; "JobDriver"; "SparkSubmitJobDriver"] doc = Some (JsObject [])).
Proof.
  intros Hc Hr.
  apply constructor_ok_inv in Hc
    as (role & granted & _ & _ & _ & _ & _ & _ & _ & _ & ->).
  apply _renderTask_ok_inv in Hr as (ac & _ & Hac & Hpath).
  cbn [this_props] in Hac.
  rewrite !Hpath. clear Hpath.
  rewrite !parameters_overrides, !parameters_driver.
  cbn [this_props this_logGroup this_logBucket].
  split; [| split; [| split; [| split; [| split; [| split; [| split]]]]]].
  - intros H. unfold parametersObject. cbv zeta. cbn [this_props]. rewrite H.
    split; walk; reflexivity.
  - intros H.
    destruct (sparkSubmitJobDriver (jobDriver props)) as [d |]; [rewrite (H d eq_refl) |];
      split; walk; reflexivity.
  - intros H.
    destruct (sparkSubmitJobDriver (jobDriver props)) as [d |]; [rewrite (H d eq_refl) |];
      split; walk; reflexivity.
  - intros H. rewrite (Hac H). split; walk; reflexivity.
  - intros H. rewrite H. split; walk; reflexivity.
  - intros H. rewrite H. walk. reflexivity.
  - destruct (monitoring props) as [m |] eqn:Hm.
    + destruct (persistentAppUI m) as [[|] |] eqn:Hui.
      * exists "ENABLED". split; [walk; reflexivity | split; [| left; reflexivity]].
        split; [intros E; discriminate E |].
        intros [m' [Hm' Hf]]. injection Hm' as <-. rewrite Hui in Hf. discriminate Hf.
      * exists "DISABLED". split; [walk; reflexivity | split; [| right; reflexivity]].
        split; [intros _; exists m; split; [reflexivity | exact Hui] | reflexivity].
      * exists "ENABLED". split; [walk; reflexivity | split; [| left; reflexivity]].
        split; [intros E; discriminate E |].
        intros [m' [Hm' Hf]]. injection Hm' as <-. rewrite Hui in Hf. discriminate Hf.
    + exists "ENABLED". split; [walk; reflexivity | split; [| left; reflexivity]].
      split; [intros E; discriminate E | intros [m' [Hm' _]]; discriminate Hm'].
  - intros H. rewrite H. reflexivity.
Qed.

Lemma absent_fields_omitted_witness :
  (get_path ["Parameters"; "Name"] Cases.literal_doc = None /\
   get_path ["Parameters"; "Name.$"] Cases.literal_doc = None) /\
  (get_path ["Parameters"; "ConfigurationOverrides"; "Tags"] Cases.literal_doc = None /\
   get_path ["Parameters"; "ConfigurationOverrides"; "Tags.$"] Cases.literal_doc = None) /\
  get_path ["Parameters"; "ConfigurationOverrides"; "MonitoringConfiguration"]
           Cases.literal_doc
  = Some (JsObject [("PersistentAppUI", JsString "ENABLED")]).
Proof.
  pose proof (absent_fields_omitted "Task" Samples.literal_props Samples.literal_task
                Cases.literal_doc eq_refl eq_refl)
    as (Hname & _ & _ & _ & Htags & Hmonitoring & _).
  split; [exact (Hname eq_refl) | split; [exact (Htags eq_refl) | exact (Hmonitoring eq_refl)]].
Defined.

(** C3 as stated fails: a valid specification without monitoring options
    renders the monitoring keys [MonitoringConfiguration] and
    [PersistentAppUI], and one without a job driver renders
    [SparkSubmitJobDriver] as an empty object. *)
Lemma monitoring_rendered_without_options :
  (monitoring Samples.literal_props = None /\
   constructor "Task" Samples.literal_props = Ok Samples.literal_task /\
   _renderTask Samples.literal_task = Ok Cases.literal_doc /\
   get_path ["Parameters"; "ConfigurationOverrides"; "MonitoringConfiguration";
             "PersistentAppUI"] Cases.literal_doc
   = Some (JsString "ENABLED")) /\
  (sparkSubmitJobDriver (jobDriver Cases.driverless_props) = None /\
   constructor "Task" Cases.driverless_props = Ok Cases.driverless_task /\
   Cases.rendered_at ["Parameters"; "JobDriver"; "SparkSubmitJobDriver"] Cases.driverless_task
   = Some (JsObject [])).
Proof. repeat split. Qed.

(** ** Tags *)

Lemma get_property_NoDup {A : Type} (o : list (string * A)) (kv : string * A) :
  NoDup (Object_keys o) -> In kv o -> get_property (fst kv) o = Some (snd kv).
Proof.
  unfold Object_keys. induction o as [| [k v] rest IH]; intros Hnd Hin.
  - destruct Hin.
  - simpl in Hnd. inversion Hnd as [| ? ? Hnotin Hnd']; subst.
    simpl. destruct Hin as [<- | Hin].
    + simpl. rewrite String.eqb_refl. reflexivity.
    + destruct (String.eqb_spec k (fst kv)) as [-> | _].
      * exfalso. apply Hnotin. apply in_map. exact Hin.
      * apply IH; assumption.
Qed.

(** With distinct keys, [renderTags] lists the pairs of the mapping in
    their order. *)
Lemma renderTags_pairs (tg : StringMap) :
  NoDup (Object_keys tg) ->
  renderTags (Some tg)
  = JsObject
      [("Tags",
        JsArray (map (fun kv => JsObject [("Key", JsString (fst kv));
                                          ("Value", JsString (snd kv))]) tg))].
Proof.
  intros Hnd. unfold renderTags, Object_keys. rewrite map_map.
  rewrite (map_ext_in _ (fun kv => JsObject [("Key", JsString (fst kv));
                                             ("Value", JsString (snd kv))]) tg);
    [reflexivity |].
  intros kv Hin. rewrite (get_property_NoDup tg kv Hnd Hin). reflexivity.
Qed.




Lemma NoDup_team_stage : NoDup (Object_keys [("team", "data"); ("stage", "test")]).
Proof.
  simpl. constructor.
  - simpl. intros [H | []]. discriminate H.
  - constructor; [intros [] | constructor].
Qed.



(** ** Further properties of the constructor and of rendering *)

(** X4.  A task is only ever built around a role the caller supplied: without
    one the constructor throws, either in a check or, once the checks have
    passed, when [createJobExecutionRole] grants the monitoring policies on
    the still unassigned [this.role]. *)
Theorem constructor_needs_supplied_role (id : string) (props : EmrContainersStartJobRunProps) :
  (forall t, constructor id props = Ok t -> executionRole props = Some (this_role t)) /\
  (executionRole props = None -> exists e, constructor id props = Throw e) /\
  (executionRole props = None ->
   validatePatternSupported (requestedPattern props) SUPPORTED_INTEGRATION_PATTERNS = Ok tt ->
   check_applicationConfig props = Ok tt ->
   check_entryPoint props = Ok tt ->
   check_entryPointArguments_type props = Ok tt ->
   check_entryPointArguments_length props = Ok tt ->
   check_sparkSubmitParameters props = Ok tt ->
   check_executionRole props = Ok tt ->
   constructor id props = Throw JsTypeError).
Proof.
  split; [| split].
  - intros t H.
    apply constructor_ok_inv in H as (role & granted & Hrole & _ & _ & _ & _ & _ & _ & _ & ->).
    exact Hrole.
  - intros Hnone. destruct (constructor id props) as [t | e] eqn:Hc.
    + apply constructor_ok_inv in Hc as (role & granted & Hrole & _).
      rewrite Hnone in Hrole. discriminate Hrole.
    + exists e. reflexivity.
  - intros Hnone H1 H2 H3 H4 H5 H6 H7.
    unfold constructor. fold (requestedPattern props).
    rewrite H1, H2, H3, H4, H5, H6, H7, Hnone. reflexivity.
Qed.

Lemma constructor_needs_supplied_role_witness :
  constructor "Task" (Samples.with_role None Samples.literal_props) = Throw JsTypeError.
Proof.
  apply (proj2 (proj2 (constructor_needs_supplied_role
                         "Task" (Samples.with_role None Samples.literal_props))));
    reflexivity.
Defined.

Lemma mapM_nested_throw (elements : list ApplicationConfiguration) :
  Exists (fun element => nestedConfig element <> None) elements ->
  mapM (applicationConfigPropertyToJson false) elements = Throw JsTypeError.
Proof.
  induction 1 as [[c nested props] rest Hx | [c nested props] rest Hrest IH].
  - simpl in Hx. destruct nested as [kids |]; [reflexivity | contradiction Hx; reflexivity].
  - destruct nested as [kids |]; [reflexivity |].
    simpl. simpl in IH. rewrite IH. reflexivity.
Qed.

(** X5.  Rendering throws a [TypeError] exactly when some top-level configuration
    has a nested list: the mapper runs with [this] undefined and cannot
    reach itself for the nested level.  Otherwise it returns a document. *)
Theorem _renderTask_nested_config (t : EmrContainersStartJobRun) :
  (_renderTask t = Throw JsTypeError <->
   exists elements,
     applicationConfig (this_props t) = Some elements /\
     Exists (fun element => nestedConfig element <> None) elements) /\
  ((exists doc, _renderTask t = Ok doc) <->
   forall elements,
     applicationConfig (this_props t) = Some elements ->
     Forall (fun element => nestedConfig element = None) elements).
Proof.
  assert (Hdec : forall elements : list ApplicationConfiguration,
             Forall (fun element => nestedConfig element = None) elements \/
             Exists (fun element => nestedConfig element <> None) elements).
  { induction elements as [| x rest [IH | IH]].
    - left. constructor.
    - destruct (nestedConfig x) as [kids |] eqn:Hx.
      + right. left. rewrite Hx. discriminate.
      + left. constructor; assumption.
    - right. right. exact IH. }
  assert (Hthrow : forall elements,
             applicationConfig (this_props t) = Some elements ->
             Exists (fun element => nestedConfig element <> None) elements ->
             _renderTask t = Throw JsTypeError).
  { intros elements Hsome Hex. unfold _renderTask, listMapper.
    rewrite Hsome, (mapM_nested_throw elements Hex). reflexivity. }
  split; split.
  - intros H. destruct (applicationConfig (this_props t)) as [elements |] eqn:Hsome.
    + exists elements. split; [reflexivity |].
      destruct (Hdec elements) as [Hall | Hex]; [| exact Hex].
      destruct (_renderTask_ok t) as [doc Hdoc].
      * intros elements' E. rewrite Hsome in E. injection E as <-. exact Hall.
      * rewrite Hdoc in H. discriminate H.
    + unfold _renderTask, listMapper in H. rewrite Hsome in H. discriminate H.
  - intros [elements [Hsome Hex]]. exact (Hthrow elements Hsome Hex).
  - intros [doc Hdoc] elements Hsome.
    destruct (Hdec elements) as [Hall | Hex]; [exact Hall |].
    rewrite (Hthrow elements Hsome Hex) in Hdoc. discriminate Hdoc.
  - apply _renderTask_ok.
Qed.

(** X6.  The Spark submit parameters are rejected exactly when they are longer
    than 102400 characters: the empty string is falsy and skips the check. *)
Theorem sparkSubmitParameters_check (props : EmrContainersStartJobRunProps)
    (driver : SparkSubmitJobDriver) (parameters : string) :
  sparkSubmitJobDriver (jobDriver props) = Some driver ->
  sparkSubmitParameters driver = Some parameters ->
  let n := Z.of_nat (String.length parameters) in
  (check_sparkSubmitParameters props = Throw (SparkSubmitParametersLength n)
   <-> (102400 < n)%Z) /\
  (check_sparkSubmitParameters props = Ok tt <-> (n <= 102400)%Z).
Proof.
  intros Hdriver Hparameters n.
  unfold check_sparkSubmitParameters. rewrite Hdriver, Hparameters. cbv zeta. fold n.
  rewrite throw_if_throw, throw_if_ok.
  assert (Hn : (0 <= n)%Z) by (subst n; lia).
  destruct (Z.eqb_spec n 0) as [E | E]; simpl.
  - split; split.
    + intros [H _]. discriminate H.
    + intros H. lia.
    + intros _. lia.
    + intros _. reflexivity.
  - rewrite orb_true_iff, orb_false_iff, !Z.ltb_lt, !Z.ltb_ge.
    split; split.
    + intros [H _]. lia.
    + intros H. split; [left; exact H | reflexivity].
    + intros [H _]. exact H.
    + intros H. split; lia.
Qed.

Lemma sparkSubmitParameters_check_witness :
  check_sparkSubmitParameters Samples.literal_props = Ok tt.
Proof.
  apply (sparkSubmitParameters_check Samples.literal_props Samples.driver
           "--conf spark.executor.instances=2" eq_refl eq_refl).
  simpl. lia.
Defined.

(** * Further properties *)

(** ** The constructor as a whole *)




(** ** Monitoring *)

Lemma constructor_rolePolicy (id : string) (props : EmrContainersStartJobRunProps)
    (t : EmrContainersStartJobRun) :
  constructor id props = Ok t -> rolePolicy t = [logsStatement].
Proof.
  unfold constructor. intros H.
  do 7 (apply bind_ok_inv in H as [[] [_ H]]).
  cbv zeta in H.
  destruct (executionRole props) as [role |]; cbn in H.
  - injection H as <-. reflexivity.
  - discriminate H.
Qed.

Lemma monitoringLogGroup_created (id : string) (m : Monitoring) :
  logGroup m <> None \/ logging m = Some true ->
  monitoringLogGroup id (Some m) = Some (newLogGroup id).
Proof.
  unfold monitoringLogGroup. intros [Hg | Hl].
  - destruct (logGroup m); [reflexivity | contradiction Hg; reflexivity].
  - rewrite Hl. destruct (logGroup m); reflexivity.
Qed.

Lemma monitoringLogBucket_created (id : string) (m : Monitoring) :
  logBucket m <> None \/ logging m = Some true ->
  monitoringLogBucket id (Some m) = Some (newBucket id).
Proof.
  unfold monitoringLogBucket. intros [Hb | Hl].
  - destruct (logBucket m); [reflexivity | contradiction Hb; reflexivity].
  - rewrite Hl. destruct (logBucket m); reflexivity.
Qed.

(** X8.  On a compiled task the log group is a newly created one whenever
    the caller supplied a log group or set [logging] to [true], and there is
    none otherwise; a supplied log group is never the task's own.  The same
    holds for the bucket.  The role is granted the log statement in every
    case, also without monitoring options. *)
Theorem monitoring_resources (id : string) (props : EmrContainersStartJobRunProps)
    (t : EmrContainersStartJobRun) :
  constructor id props = Ok t ->
  (forall m, monitoring props = Some m ->
     (logGroup m <> None \/ logging m = Some true ->
      this_logGroup t = Some (newLogGroup id)) /\
     (logGroup m = None /\ logging m <> Some true -> this_logGroup t = None) /\
     (logBucket m <> None \/ logging m = Some true ->
      this_logBucket t = Some (newBucket id)) /\
     (logBucket m = None /\ logging m <> Some true -> this_logBucket t = None)) /\
  (monitoring props = None -> this_logGroup t = None /\ this_logBucket t = None) /\
  (forall g, this_logGroup t = Some g -> g = newLogGroup id) /\
  (forall b, this_logBucket t = Some b -> b = newBucket id) /\
  rolePolicy t = [logsStatement].
Proof.
  intros H. pose proof (constructor_rolePolicy id props t H) as Hpolicy.
  apply constructor_ok_inv in H
    as (role & granted & _ & _ & _ & _ & _ & _ & _ & _ & ->).
  cbn [this_logGroup this_logBucket rolePolicy] in *.
  split; [| split; [| split; [| split]]].
  - intros m ->. repeat split.
    + apply monitoringLogGroup_created.
    + intros [Hg Hl]. unfold monitoringLogGroup. rewrite Hg.
      destruct (logging m) as [[|] |]; try reflexivity. contradiction Hl. reflexivity.
    + apply monitoringLogBucket_created.
    + intros [Hb Hl]. unfold monitoringLogBucket. rewrite Hb.
      destruct (logging m) as [[|] |]; try reflexivity. contradiction Hl. reflexivity.
  - intros ->. split; reflexivity.
  - intros g Hg. unfold monitoringLogGroup in Hg.
    destruct (match monitoring props with
              | Some m' =>
                  match logGroup m' with
                  | Some _ => true
                  | None => match logging m' with Some b => b | None => false end
                  end
              | None => false
              end); [injection Hg as <-; reflexivity | discriminate Hg].
  - intros b Hb. unfold monitoringLogBucket in Hb.
    destruct (match monitoring props with
              | Some m' =>
                  match logBucket m' with
                  | Some _ => true
                  | None => match logging m' with Some b => b | None => false end
                  end
              | None => false
              end); [injection Hb as <-; reflexivity | discriminate Hb].
  - exact Hpolicy.
Qed.

Lemma monitoring_resources_witness :
  this_logGroup MoreCases.own_logGroup_task = Some (newLogGroup "Task") /\
  this_logBucket MoreCases.own_logGroup_task = None.
Proof.
  pose proof (monitoring_resources "Task" MoreCases.own_logGroup_props
                MoreCases.own_logGroup_task eq_refl) as [H _].
  destruct (H _ eq_refl) as (Hgroup & _ & _ & Hbucket).
  split.
  - apply Hgroup. left. discriminate.
  - apply Hbucket. split; [reflexivity | discriminate].
Defined.



(** ** Entry point arguments given by reference *)

(** X10.  Entry point arguments that are a runtime reference pass both the
    type check and the length check, whatever the reference holds and
    however long its marker is; so does every array of between 1 and 10280
    strings, however long the strings are. *)
Theorem entryPointArguments_accepted (props : EmrContainersStartJobRunProps)
    (driver : SparkSubmitJobDriver) (args : TaskInput) :
  sparkSubmitJobDriver (jobDriver props) = Some driver ->
  entryPointArguments driver = Some args ->
  isEncodedJsonPath (value args) = true \/
  (exists items,
      value args = JsArray items /\
      Forall (fun item => exists s, item = JsString s) items /\
      (1 <= Z.of_nat (List.length items) <= 10280)%Z) ->
  check_entryPointArguments_type props = Ok tt /\
  check_entryPointArguments_length props = Ok tt.
Proof.
  intros Hdriver Hargs H.
  unfold check_entryPointArguments_type, check_entryPointArguments_length.
  rewrite Hdriver, Hargs. cbv zeta.
  destruct H as [Hpath | [items [Hvalue [Hstrings Hlen]]]].
  - rewrite Hpath. rewrite !andb_false_r. split; reflexivity.
  - rewrite Hvalue.
    assert (Hall : isArrayOfStrings (JsArray items) = true).
    { simpl. apply forallb_forall. intros item Hin.
      rewrite Forall_forall in Hstrings. destruct (Hstrings item Hin) as [s ->]. reflexivity. }
    rewrite Hall. split; [reflexivity |].
    apply throw_if_ok. cbn [js_length js_gt js_lt isEncodedJsonPath negb].
    rewrite andb_true_r. apply orb_false_iff. rewrite !Z.ltb_ge. lia.
Qed.

Lemma entryPointArguments_accepted_witness :
  (check_entryPointArguments_type MoreCases.reference_arguments_props = Ok tt /\
   check_entryPointArguments_length MoreCases.reference_arguments_props = Ok tt) /\
  (check_entryPointArguments_type Cases.long_argument_props = Ok tt /\
   check_entryPointArguments_length Cases.long_argument_props = Ok tt).
Proof.
  split.
  - apply (entryPointArguments_accepted MoreCases.reference_arguments_props _ _
             eq_refl eq_refl).
    left. reflexivity.
  - apply (entryPointArguments_accepted Cases.long_argument_props _ _ eq_refl eq_refl).
    right. eexists. split; [reflexivity | split].
    + constructor; [eexists; reflexivity | constructor].
    + simpl. lia.
Defined.

(** ** Limits on configuration trees, continued *)

Lemma bind_ok_tt (r : Result unit) : (r ;; Ok tt) = r.
Proof. destruct r as [[] | e]; reflexivity. Qed.

Lemma forEach_all_ok {A : Type} (f : A -> Result unit) (xs : list A) :
  Forall (fun x => f x = Ok tt) xs -> forEach f xs = Ok tt.
Proof.
  induction 1 as [| x rest Hx Hrest IH]; simpl.
  - reflexivity.
  - rewrite Hx. exact IH.
Qed.

(** X11.  Within one level of at most 100 entries, a node with more than
    100 properties makes validation fail with the properties error even
    when a sibling, before or after it, has an oversized nested list: all
    property mappings of the level are checked before any nested list. *)
Theorem properties_checked_before_nested (elements : list ApplicationConfiguration)
    (element : ApplicationConfiguration) (p : StringMap) :
  (Z.of_nat (List.length elements) <= 100)%Z ->
  In element elements ->
  properties element = Some p ->
  (100 < Z.of_nat (List.length p))%Z ->
  exists received,
    validateAppConfigLength (Some elements) = Throw (AppConfigPropertiesLength received).
Proof.
  intros Hlen Hin Hp Hmany.
  unfold validateAppConfigLength, validateAppConfigLength_body.
  apply Z.ltb_ge in Hlen. rewrite Hlen.
  assert (Hthrow : validateAppConfigPropertiesLength element
                   = Throw (AppConfigPropertiesLength (properties_length p))).
  { apply validateAppConfigPropertiesLength_throw. exists p. repeat split; assumption. }
  destruct (forEach_throw_in _ _ _ _ Hin Hthrow) as [e He].
  rewrite He. cbn [bind].
  apply forEach_throw_inv in He as [x [_ Hx]].
  apply validateAppConfigPropertiesLength_throw in Hx as [q [_ [_ ->]]].
  eexists. reflexivity.
Qed.

Lemma properties_checked_before_nested_witness :
  exists received,
    validateAppConfigLength (Some MoreCases.crowded_both)
    = Throw (AppConfigPropertiesLength received).
Proof.
  apply (properties_checked_before_nested MoreCases.crowded_both
           (mkApplicationConfiguration SPARK_DEFAULTS None (Some (manyProperties 101)))
           (manyProperties 101)).
  - vm_compute. discriminate.
  - right. left. reflexivity.
  - reflexivity.
  - vm_compute. reflexivity.
Defined.

Lemma validate_nest (depth : nat) (bottom : list ApplicationConfiguration) :
  validateAppConfigLength (Some (nest depth bottom)) = validateAppConfigLength (Some bottom).
Proof.
  induction depth as [| d IH]; [reflexivity |].
  change (validateAppConfigLength (Some (nest (S d) bottom)))
    with (Ok tt ;; (validateAppConfigLength (Some (nest d bottom)) ;; Ok tt)).
  cbn [bind]. rewrite bind_ok_tt. exact IH.
Qed.

Lemma length_manyNodes (n : nat) : List.length (manyNodes n) = n.
Proof. apply repeat_length. Qed.

Lemma length_manyProperties (n : nat) : List.length (manyProperties n) = n.
Proof. unfold manyProperties. rewrite length_map. apply length_seq. Qed.

Lemma manyProperties_no_length (n : nat) :
  get_property "length" (manyProperties n) = None.
Proof.
  unfold manyProperties. generalize 0%nat.
  induction n as [| k IH]; intros start; [reflexivity |].
  simpl. apply IH.
Qed.

(** X12.  The bound is exactly 100, at every depth: [n] sibling nodes below
    any chain of single-child nodes are accepted when [n] is at most 100
    and rejected with the list error reporting [n] otherwise; a node with
    [n] properties below such a chain is accepted when [n] is at most 100
    and rejected with the properties error otherwise. *)
Theorem limits_are_exact (depth n : nat) :
  validateAppConfigLength (Some (nest depth (manyNodes n)))
  = (if (100 <? Z.of_nat n)%Z then Throw (AppConfigArrayLength (Z.of_nat n)) else Ok tt) /\
  validateAppConfigLength
    (Some (nest depth [mkApplicationConfiguration SPARK None (Some (manyProperties n))]))
  = (if (100 <? Z.of_nat n)%Z then Throw (AppConfigPropertiesLength JsUndefined) else Ok tt).
Proof.
  rewrite !validate_nest. split.
  - unfold validateAppConfigLength, validateAppConfigLength_body.
    rewrite length_manyNodes.
    destruct (100 <? Z.of_nat n)%Z; [reflexivity |].
    assert (Hprops : forEach validateAppConfigPropertiesLength (manyNodes n) = Ok tt).
    { apply forEach_all_ok, Forall_forall. intros x Hx.
      apply repeat_spec in Hx. subst x. reflexivity. }
    assert (Hnested : forEach validateNestedConfig (manyNodes n) = Ok tt).
    { apply forEach_all_ok, Forall_forall. intros x Hx.
      apply repeat_spec in Hx. subst x. reflexivity. }
    rewrite Hprops, Hnested. reflexivity.
  - unfold validateAppConfigLength, validateAppConfigLength_body.
    cbn [List.length Z.of_nat Z.ltb Z.compare Pos.compare Pos.compare_cont forEach bind].
    unfold validateAppConfigPropertiesLength, Object_keys, properties_length.
    cbn [properties]. rewrite length_map, length_manyProperties, manyProperties_no_length.
    destruct (100 <? Z.of_nat n)%Z; reflexivity.
Qed.

(** ** Tags and flat configurations *)

(** X13.  [renderTags] loses nothing: it gives one pair per key, the keys in
    the order of the mapping, and for a mapping with distinct keys the
    mapping can be read back from the result; without a mapping it gives the
    empty object. *)
Theorem renderTags_round_trip (tg : StringMap) :
  NoDup (Object_keys tg) ->
  tags_of_rendered (renderTags (Some tg)) = Some tg /\
  (exists items,
      renderTags (Some tg) = JsObject [("Tags", JsArray items)] /\
      List.length items = List.length tg /\
      map (get_path ["Key"]) items = map (fun key => Some (JsString key)) (Object_keys tg)) /\
  renderTags None = JsObject [].
Proof.
  intros Hnd. rewrite (renderTags_pairs tg Hnd). split; [| split; [| reflexivity]].
  - cbn [tags_of_rendered]. rewrite String.eqb_refl. clear Hnd.
    induction tg as [| [k v] rest IH]; [reflexivity |].
    cbn [map pairs_of_objects pair_of_object fst snd].
    rewrite !String.eqb_refl. cbn [andb]. rewrite IH. reflexivity.
  - eexists. split; [reflexivity | split].
    + apply length_map.
    + unfold Object_keys. rewrite !map_map. apply map_ext. intros kv. reflexivity.
Qed.

Lemma renderTags_round_trip_witness :
  tags_of_rendered (renderTags (Some [("team", "data"); ("stage", "test")]))
  = Some [("team", "data"); ("stage", "test")].
Proof.
  exact (proj1 (renderTags_round_trip _ NoDup_team_stage)).
Defined.





(** ** Policy statements, continued *)

(** X15.  [derive] never repeats a statement; it returns two statements in
    the synchronous mode and one in every other mode; the statement for
    [emr-containers:StartJobRun] is the only one that carries a condition;
    and every action it grants is an [emr-containers] action. *)
Theorem derive_shape (t : EmrContainersStartJobRun) :
  NoDup (derive t) /\
  List.length (derive t)
  = (if IntegrationPattern_eqb (this_integrationPattern t) RUN_JOB then 2 else 1)%nat /\
  (forall st, In st (derive t) ->
              (conditions st <> [] <-> actions st = ["emr-containers:StartJobRun"])) /\
  (forall st action, In st (derive t) -> In action (actions st) ->
                     String.prefix "emr-containers:" action = true).
Proof.
  unfold derive, createPolicyStatements.
  destruct (IntegrationPattern_eqb (this_integrationPattern t) RUN_JOB).
  - split; [| split; [reflexivity | split]].
    + constructor; [| constructor; [intros [] | constructor]].
      intros [H | []]. discriminate H.
    + intros st [<- | [<- | []]]; cbn [conditions actions]; split; intros H;
        try reflexivity; try discriminate; try (contradiction H; reflexivity).
    + intros st action [<- | [<- | []]]; cbn [actions];
        intros Ha; repeat (destruct Ha as [<- | Ha]; [reflexivity |]); destruct Ha.
  - split; [| split; [reflexivity | split]].
    + constructor; [intros [] | constructor].
    + intros st [<- | []]; cbn [conditions actions]; split; intros H;
        [reflexivity | discriminate].
    + intros st action [<- | []]; cbn [actions];
        intros Ha; repeat (destruct Ha as [<- | Ha]; [reflexivity |]); destruct Ha.
Qed.

(** ** [EmrContainersCreateVirtualCluster] *)

(** X16.  The constructor of the virtual-cluster task succeeds exactly when
    no mode or the fire-and-forget mode is requested.  The task then keeps
    the props, runs fire-and-forget, and holds the same two statements
    whatever the props are: [emr-containers:CreateVirtualCluster] on every
    resource, and [iam:CreateServiceLinkedRole] on the service-linked role of
    EMR containers only, under the condition that the service name is
    [emr-containers.amazonaws.com]. *)
Theorem create_cluster_constructor
    (props : CreateVirtualCluster.EmrContainersCreateVirtualClusterProps) :
  ((exists t, CreateVirtualCluster.constructor props = Ok t) <->
   CreateVirtualCluster.requestedPattern props = REQUEST_RESPONSE) /\
  (forall t, CreateVirtualCluster.constructor props = Ok t ->
     CreateVirtualCluster.this_props t = props /\
     CreateVirtualCluster.this_integrationPattern t = REQUEST_RESPONSE /\
     CreateVirtualCluster.taskPolicies t
     = [ {| resources := [ResourceText "*"];
            actions := ["emr-containers:CreateVirtualCluster"];
            conditions := [] |};
         {| resources :=
              [FormatArn
                 {| service := "iam";
                    region := Some EmptyString;
                    resource := "role/aws-service-role/emr-containers.amazonaws.com";
                    resourceName := JsString "AWSServiceRoleForAmazonEMRContainers" |}];
            actions := ["iam:CreateServiceLinkedRole"];
            conditions :=
              [("StringLike",
                [("iam:AWSServiceName", "emr-containers.amazonaws.com")])] |} ]).
Proof.
  unfold CreateVirtualCluster.constructor.
  fold (CreateVirtualCluster.requestedPattern props).
  destruct (CreateVirtualCluster.requestedPattern props); cbn; (split; [split |]).
  - intros _. reflexivity.
  - intros _. eexists. reflexivity.
  - intros t H. injection H as <-. repeat split.
  - intros [t H]. discriminate H.
  - intros H. discriminate H.
  - intros t H. discriminate H.
  - intros [t H]. discriminate H.
  - intros H. discriminate H.
  - intros t H. discriminate H.
Qed.

Lemma create_cluster_constructor_witness :
  CreateVirtualCluster.this_integrationPattern MoreCases.create_cluster_task
  = REQUEST_RESPONSE.
Proof.
  exact (proj1 (proj2 (proj2 (create_cluster_constructor MoreCases.create_cluster_props)
                         MoreCases.create_cluster_task eq_refl))).
Defined.

(** ** Literal and reference values in the rendered documents *)









(** ** What a compiled task guarantees *)

(** X19.  Whenever the constructor returns a task, the task keeps the props
    and runs in a supported mode; the application configuration is not
    oversized at any depth; a literal entry point is between 1 and 256
    characters long; the entry point arguments are a runtime reference or an
    array of between 1 and 10280 strings; the Spark submit parameters are at
    most 102400 characters long; the role is the one supplied; and the stored
    statements are those [derive] computes. *)
Theorem compiled_task_invariant (id : string) (props : EmrContainersStartJobRunProps)
    (t : EmrContainersStartJobRun) :
  constructor id props = Ok t ->
  this_props t = props /\
  In (this_integrationPattern t) SUPPORTED_INTEGRATION_PATTERNS /\
  (forall config, applicationConfig props = Some config -> ~ Oversized config) /\
  (forall driver,
      sparkSubmitJobDriver (jobDriver props) = Some driver ->
      (forall s, value (entryPoint driver) = JsString s ->
                 (1 <= Z.of_nat (String.length s) <= 256)%Z) /\
      (forall args,
          entryPointArguments driver = Some args ->
          isEncodedJsonPath (value args) = true \/
          (exists items,
              value args = JsArray items /\
              isArrayOfStrings (JsArray items) = true /\
              (1 <= Z.of_nat (List.length items) <= 10280)%Z)) /\
      (forall parameters,
          sparkSubmitParameters driver = Some parameters ->
          (Z.of_nat (String.length parameters) <= 102400)%Z)) /\
  executionRole props = Some (this_role t) /\
  taskPolicies t = derive t.
Proof.
  intros H.
  apply constructor_ok_inv in H
    as (role & granted & Hrole & Hpattern & Hconfig & Hentry & Htype & Hlength & Hspark & _ & ->).
  cbn [this_props this_integrationPattern this_role taskPolicies].
  split; [reflexivity |].
  split; [apply validatePatternSupported_ok; exact Hpattern |].
  split; [| split; [| split; [exact Hrole | reflexivity]]].
  - intros config Hsome Hover.
    unfold check_applicationConfig in Hconfig. rewrite Hsome in Hconfig.
    destruct (validateAppConfigLength_oversized config Hover) as [e He].
    rewrite He in Hconfig. discriminate Hconfig.
  - intros driver Hdriver. split; [| split].
    + intros s Hs. unfold check_entryPoint in Hentry. rewrite Hdriver in Hentry.
      cbv zeta in Hentry. rewrite Hs in Hentry. apply throw_if_ok in Hentry.
      cbn [isEncodedJsonPath negb andb js_length js_gt js_lt] in Hentry.
      apply orb_false_iff in Hentry. rewrite !Z.ltb_ge in Hentry. lia.
    + intros args Hargs.
      unfold check_entryPointArguments_type in Htype.
      unfold check_entryPointArguments_length in Hlength.
      rewrite Hdriver, Hargs in Htype, Hlength. cbv zeta in Hlength.
      apply throw_if_ok in Htype. apply throw_if_ok in Hlength.
      destruct (isEncodedJsonPath (value args)) eqn:Hpath; [left; reflexivity | right].
      rewrite andb_true_r in Htype, Hlength. apply negb_false_iff in Htype.
      destruct (value args) as [| | | | | | items |] eqn:Hvalue; try discriminate Htype.
      exists items. split; [reflexivity | split; [exact Htype |]].
      cbn [js_length js_gt js_lt] in Hlength.
      apply orb_false_iff in Hlength. rewrite !Z.ltb_ge in Hlength. lia.
    + intros parameters Hparameters.
      unfold check_sparkSubmitParameters in Hspark.
      rewrite Hdriver, Hparameters in Hspark. cbv zeta in Hspark.
      apply throw_if_ok in Hspark.
      destruct (Z.eqb_spec (Z.of_nat (String.length parameters)) 0) as [E | E].
      * lia.
      * cbn [negb andb] in Hspark. apply orb_false_iff in Hspark.
        rewrite !Z.ltb_ge in Hspark. lia.
Qed.

Lemma compiled_task_invariant_witness :
  In (this_integrationPattern Samples.literal_task) SUPPORTED_INTEGRATION_PATTERNS /\
  executionRole Samples.literal_props = Some (this_role Samples.literal_task).
Proof.
  pose proof (compiled_task_invariant "Task" Samples.literal_props Samples.literal_task
                eq_refl) as (_ & Hmode & _ & _ & Hrole & _).
  split; [exact Hmode | exact Hrole].
Defined.
